(** * SoilVision: the training pipeline and the CoreML converter

    A shallow embedding of [ML_Model/train_model.py] and
    [ML_Model/convert_to_coreml.py].  Python functions become Rocq
    functions; exceptions are a [result] type; the file system is a finite
    map from path names to nodes; the third-party back ends (Keras image
    pipeline, scikit-learn report, coremltools) are interfaces whose
    reference instances follow the libraries' documented behaviour. *)

From Stdlib Require Import ZArith QArith Qround String Ascii List Sorted Lia.
From stdpp Require Import base gmap sets list strings pretty.

Open Scope string_scope.
Set Warnings "-clear-no-such-hyp".

(** ** Python: exceptions, results, strings, [os.path] *)

Module Py.

(** The exception classes that the two scripts raise themselves or receive
    from the calls they make.  All of them derive from [Exception]. *)
Inductive exception : Type :=
| FileNotFoundError (path : string)
| NotADirectoryError (path : string)
| OSError (what : string)
| ValueError (names : gset string)
| TypeError (what : string)
| ImportError (module : string)
| ZeroDivisionError
| SyntaxError (msg : string)
| Exception (msg : string).

Inductive result (A : Type) : Type :=
| Ok (a : A)
| Raise (e : exception).
Arguments Ok {A} a.
Arguments Raise {A} e.

#[export] Instance result_ret : MRet result := @Ok.
#[export] Instance result_bind : MBind result :=
  fun A B k c =>
    match c with
    | Ok a => k a
    | Raise e => Raise e
    end.

(** How a script ends: [main] returns, [sys.exit(code)] is called, or an
    exception reaches the top level. *)
Inductive exit_status : Type :=
| Completed
| Exit (code : Z)
| Uncaught (e : exception).

(** [str.lower] on ASCII letters. *)
Definition lower_ascii (c : ascii) : ascii :=
  let n := nat_of_ascii c in
  if (65 <=? n)%nat && (n <=? 90)%nat then ascii_of_nat (n + 32) else c.

Fixpoint lower (s : string) : string :=
  match s with
  | EmptyString => EmptyString
  | String c s' => String (lower_ascii c) (lower s')
  end.

Definition startswith (s pre : string) : bool := String.prefix pre s.

Definition endswith (s suf : string) : bool :=
  (String.length suf <=? String.length s)%nat
  && String.eqb
       (substring (String.length s - String.length suf) (String.length suf) s)
       suf.

(** [s.endswith((suf1, suf2, ...))] *)
Definition endswith_any (s : string) (sufs : list string) : bool :=
  existsb (endswith s) sufs.

(** [s.replace(old, new)] for a non-empty [old]: every non-overlapping
    occurrence, left to right.  [skip] counts the characters of a matched
    occurrence that remain to be dropped. *)
Fixpoint replace_from (old new : string) (skip : nat) (s : string) : string :=
  match s with
  | EmptyString => EmptyString
  | String c s' =>
      match skip with
      | S k => replace_from old new k s'
      | O =>
          if String.prefix old s
          then new ++ replace_from old new (String.length old - 1) s'
          else String c (replace_from old new 0 s')
      end
  end.

Definition replace (s old new : string) : string := replace_from old new 0 s.

(** [os.path.join(a, b)] (posixpath). *)
Definition os_path_join (a b : string) : string :=
  if startswith b "/" then b
  else if String.eqb a "" || endswith a "/" then a ++ b
  else a ++ "/" ++ b.

(** [sorted(l)] on strings: ascending code-point order. *)
Fixpoint insert_sorted (x : string) (l : list string) : list string :=
  match l with
  | [] => [x]
  | y :: l' => if String.leb x y then x :: l else y :: insert_sorted x l'
  end.

Definition sorted (l : list string) : list string := foldr insert_sorted [] l.

(** [a // b] on Python integers: floor division, which is [Z.div]. *)
Definition floordiv (a b : Z) : result Z :=
  if (b =? 0)%Z then Raise ZeroDivisionError else Ok (a / b)%Z.

(** What the compiler's symbol-table pass sees of a function body: for each
    statement, in source order, the names it binds and the names it reads,
    or the names a [global] statement declares. *)
Inductive stmt : Type :=
| Names (line : nat) (binds reads : list string)
| GlobalDecl (line : nat) (names : list string).

Definition among (names : list string) (n : string) : bool :=
  existsb (String.eqb n) names.

(** A [global] statement for a name that the body has read or bound above
    it is rejected when the module is compiled (CPython 3.6 and later; a
    warning before).  The first such name is reported, a read before an
    assignment. *)
Fixpoint symtable (bound used : list string) (body : list stmt) : result unit :=
  match body with
  | [] => Ok tt
  | Names _ binds reads :: rest =>
      symtable (bound ++ binds)%list (used ++ reads)%list rest
  | GlobalDecl _ names :: rest =>
      match List.find (fun n => among used n || among bound n) names with
      | Some n =>
          Raise (SyntaxError
                   (if among used n
                    then "name '" ++ n ++ "' is used prior to global declaration"
                    else "name '" ++ n
                         ++ "' is assigned to before global declaration"))
      | None => symtable bound used rest
      end
  end.

End Py.
Export Py.

(** ** Models, bundles and the file system *)

(** A Keras model as far as the scripts look into it: its declared input
    shape (a tuple whose entries are integers or [None]), whether its layer
    set is within the converter's supported operations, and its output
    vector on the i-th sample of the (unshuffled) validation stream. *)
Record keras_model : Type := {
  input_shape : list (option Z);
  supported_ops : bool;
  outputs : nat -> list Q
}.

(** Values stored in keyword arguments and metadata dictionaries. *)
#[warnings="-register-all"]
Inductive pyval : Type :=
| VNone
| VBool (b : bool)
| VInt (z : Z)
| VFloat (q : Q)
| VStr (s : string)
| VList (l : list pyval)
| VDict (items : list (string * pyval)).

Definition VStrs (l : list string) : pyval := VList (map VStr l).
Definition VShape (l : list (option Z)) : pyval :=
  VList (map (fun d => match d with Some z => VInt z | None => VNone end) l).

(** [ct.ImageType(name, shape, scale, bias)] *)
Record ImageType : Type := {
  it_name : string;
  it_shape : list (option Z);
  it_scale : Q;
  it_bias : option (list Z)
}.

(** The keyword arguments of one [ct.convert] call.  [cr_inputs = None] is a
    call without [inputs=]: the converter derives a generic tensor input. *)
Record convert_request : Type := {
  cr_inputs : option (list ImageType);
  cr_class_labels : list string;
  cr_convert_to : option string
}.

(** A converted CoreML model object with the attributes the scripts assign. *)
Record mlmodel : Type := {
  ml_inputs : option (list ImageType);
  ml_class_labels : list string;
  ml_short_description : string;
  ml_author : string;
  ml_license : string;
  ml_version : string;
  ml_metadata : list (string * pyval);
  ml_input_description : list (string * string);
  ml_output_description : list (string * string)
}.

Inductive content : Type :=
| Text (s : string)
| SavedModel (m : keras_model)
| MLModelFile (b : mlmodel)
| Blob.

Inductive node : Type :=
| File (c : content)
| Dir (entries : list string).

Abbreviation filesystem := (gmap string node).

Module FS.

(** [os.path.exists]: true for files and directories alike. *)
Definition exists_ (fs : filesystem) (p : string) : bool :=
  match fs !! p with Some _ => true | None => false end.

Definition isdir (fs : filesystem) (p : string) : bool :=
  match fs !! p with Some (Dir _) => true | _ => false end.

(** [os.listdir] *)
Definition listdir (fs : filesystem) (p : string) : result (list string) :=
  match fs !! p with
  | Some (Dir entries) => Ok entries
  | Some (File _) => Raise (NotADirectoryError p)
  | None => Raise (FileNotFoundError p)
  end.

(** Path names are the keys as written: doubled and trailing slashes and
    [..] are not normalised.  [parents p] lists the directories above [p],
    outermost first: the text before each [/] of [p], where that text is not
    empty, does not itself end in [/], and does not name the working
    directory or its parent ([.] and [..], which exist). *)
Definition is_dot (d : string) : bool :=
  String.eqb d "." || String.eqb d ".." || endswith d "/." || endswith d "/..".

Fixpoint parents_from (before rest : string) : list string :=
  match rest with
  | EmptyString => []
  | String c rest' =>
      (if Ascii.eqb c "/" && negb (String.eqb before "")
          && negb (endswith before "/") && negb (is_dot before)
       then [before] else [])
      ++ parents_from (before ++ String c EmptyString) rest'
  end.

Definition parents (p : string) : list string := parents_from "" p.

(** [os.mkdir] for each directory that is missing, outermost first. *)
Fixpoint mkdirs (fs : filesystem) (dirs : list string) : result filesystem :=
  match dirs with
  | [] => Ok fs
  | d :: rest =>
      match fs !! d with
      | Some (Dir _) => mkdirs fs rest
      | Some (File _) => Raise (NotADirectoryError d)
      | None => mkdirs (<[d := Dir []]> fs) rest
      end
  end.

(** [os.makedirs(p, exist_ok=True)]: the missing directories above [p] are
    created too; a regular file on the way, or at [p] itself, and the empty
    path are errors. *)
Definition makedirs (fs : filesystem) (p : string) : result filesystem :=
  if String.eqb p "" then Raise (FileNotFoundError p)
  else
    fs' ← mkdirs fs (parents p);
    match fs' !! p with
    | Some (Dir _) => Ok fs'
    | Some (File _) => Raise (OSError p)
    | None => Ok (<[p := Dir []]> fs')
    end.

Definition write (fs : filesystem) (p : string) (c : content) : filesystem :=
  <[p := File c]> fs.

(** A plotting or saving call that stores a whole file, taken to succeed. *)
Inductive op : Type :=
| WriteFile (p : string) (c : content).

Definition run_op (fs : filesystem) (o : op) : filesystem :=
  match o with
  | WriteFile p c => write fs p c
  end.

Definition run_ops (fs : filesystem) (ops : list op) : filesystem :=
  foldl run_op fs ops.

(** The steps of code that writes files of a directory [dir] and may fail
    doing so. *)
Inductive step : Type :=
| Save (dir p : string) (c : content) (* a library call that stores [c] at [p] *)
| Open (dir p : string)               (* [open(p, 'w')]: create or truncate *)
| Write (p chunk : string)            (* [f.write(chunk)] on the open file *)
| Close (p : string)                  (* leaving the [with] block *).

(** Whether a file can be created or replaced at [p], a name joined to
    [dir]: the directory has to be there (the empty [dir] is the working
    directory) and [p] must not be a directory itself
    ([IsADirectoryError], an [OSError]). *)
Definition creatable (fs : filesystem) (dir p : string) : result unit :=
  match (if String.eqb dir "" then Some (Dir []) else fs !! dir) with
  | None => Raise (FileNotFoundError p)
  | Some (File _) => Raise (NotADirectoryError p)
  | Some (Dir _) =>
      match fs !! p with
      | Some (Dir _) => Raise (OSError p)
      | _ => Ok tt
      end
  end.

(** Text written to a file object waits in its buffer; it reaches the disk
    when the buffer has grown beyond [buffer_size] characters and when the
    file is closed. *)
Definition buffer_size : N := 8192.

Definition flush (fs : filesystem) (p buffered : string) : filesystem :=
  match fs !! p with
  | Some (File (Text t)) => write fs p (Text (t ++ buffered))
  | _ => fs
  end.

(** One step on the disk and the buffer of the open file. *)
Definition run_step (st : filesystem * string) (s : step)
  : result (filesystem * string) :=
  match s with
  | Save dir p c => _ ← creatable st.1 dir p; Ok (write st.1 p c, st.2)
  | Open dir p => _ ← creatable st.1 dir p; Ok (write st.1 p (Text ""), "")
  | Write p chunk =>
      let buffered := st.2 ++ chunk in
      if (buffer_size <? N.of_nat (String.length buffered))%N
      then Ok (flush st.1 p buffered, "")
      else Ok (st.1, buffered)
  | Close p => Ok (flush st.1 p st.2, "")
  end.

(** The steps in order, up to the first that raises. *)
Fixpoint run_steps (st : filesystem * string) (steps : list step)
  : (filesystem * string) * result unit :=
  match steps with
  | [] => (st, Ok tt)
  | s :: rest =>
      match run_step st s with
      | Ok st' => run_steps st' rest
      | Raise e => (st, Raise e)
      end
  end.

Fixpoint states_from (st : filesystem * string) (steps : list step)
  : list filesystem :=
  match steps with
  | [] => []
  | s :: rest =>
      match run_step st s with
      | Ok st' => st'.1 :: states_from st' rest
      | Raise _ => []
      end
  end.

(** The states of the disk a reader can meet while [steps] run: the disk
    after each step that succeeded, in order. *)
Definition states (fs : filesystem) (steps : list step) : list filesystem :=
  states_from (fs, "") steps.

End FS.

(** Code that writes files: the file system is threaded through, and what
    was written before an exception stays written. *)
Definition io (A : Type) : Type := filesystem -> filesystem * result A.

#[export] Instance io_ret : MRet io := fun A a fs => (fs, Ok a).
#[export] Instance io_bind : MBind io :=
  fun A B k c fs =>
    match c fs with
    | (fs', Ok a) => k a fs'
    | (fs', Raise e) => (fs', Raise e)
    end.

Definition lift {A} (r : result A) : io A := fun fs => (fs, r).
Definition reading {A} (f : filesystem -> result A) : io A := fun fs => (fs, f fs).
Definition writing (ops : list FS.op) : io unit :=
  fun fs => (FS.run_ops fs ops, Ok tt).

(** [try: body except Exception as e: handler e] for code that writes. *)
Definition try_except_io {A} (body : io A) (handler : exception -> io A) : io A :=
  fun fs =>
    match body fs with
    | (fs', Ok a) => (fs', Ok a)
    | (fs', Raise e) => handler e fs'
    end.

(** ** The Keras image pipeline ([tensorflow.keras.preprocessing.image]) *)

Module Keras.

Definition kwargs : Type := list (string * pyval).

(** An [ImageDataGenerator] instance: the settings it was built with. *)
Record datagen : Type := { dg_config : kwargs }.

(** The keyword arguments of [flow_from_directory]. *)
Record flow_args : Type := {
  target_size : Z * Z;
  batch_size : Z;
  class_mode : string;
  subset : string;
  shuffle : bool;
  seed : Z
}.

(** A [DirectoryIterator]: the settings of the generator that made it, the
    resolved name-to-index mapping in index order, and the class index of
    every sample of the subset in catalogue order. *)
Record generator : Type := {
  gen_config : kwargs;
  gen_args : flow_args;
  class_indices : list (string * nat);
  classes : list nat
}.

Definition samples (g : generator) : Z := Z.of_nat (length (classes g)).

(** The two entry points the trainer calls. *)
Record API : Type := {
  ImageDataGenerator : kwargs -> result datagen;
  flow_from_directory :
    datagen -> filesystem -> string -> flow_args -> result generator
}.

(** The parameters of [ImageDataGenerator.__init__]; it takes no
    [**kwargs]. *)
Definition init_parameters : list string :=
  [ "featurewise_center"; "samplewise_center";
    "featurewise_std_normalization"; "samplewise_std_normalization";
    "zca_whitening"; "zca_epsilon"; "rotation_range"; "width_shift_range";
    "height_shift_range"; "brightness_range"; "shear_range"; "zoom_range";
    "channel_shift_range"; "fill_mode"; "cval"; "horizontal_flip";
    "vertical_flip"; "rescale"; "preprocessing_function"; "data_format";
    "validation_split"; "interpolation_order"; "dtype" ].

Definition kw_float (kw : kwargs) (k : string) : Q :=
  match List.find (fun p => String.eqb p.1 k) kw with
  | Some (_, VFloat q) => q
  | _ => 0
  end.

(** Calling the constructor when its parameters are [accepted]: the first
    keyword outside them is a [TypeError] of the call itself; the body then
    refuses a [validation_split] that is neither 0 nor strictly between 0
    and 1. *)
Definition construct (accepted : list string) (kw : kwargs) : result datagen :=
  match List.find (fun p => negb (existsb (String.eqb p.1) accepted)) kw with
  | Some p => Raise (TypeError p.1)
  | None =>
      let split := kw_float kw "validation_split" in
      if Qeq_bool split 0
         || (negb (Qle_bool split 0) && negb (Qle_bool 1 split))
      then Ok {| dg_config := kw |}
      else Raise (Exception "validation_split must be strictly between 0 and 1")
  end.

Definition white_list_formats : list string :=
  ["png"; "jpg"; "jpeg"; "bmp"; "ppm"; "tif"; "tiff"].

Definition valid_file (f : string) : bool :=
  existsb (fun ext => endswith (lower f) ("." ++ ext)) white_list_formats.

(** How many of the [n] files of one class fall into the subset: the
    validation subset is the first [int(split * n)] files, the training
    subset the rest (the product taken exactly). *)
Definition subset_count (subset : string) (split : Q) (n : nat) : nat :=
  let cut := Z.to_nat (Qfloor (split * inject_Z (Z.of_nat n))) in
  if String.eqb subset "validation" then cut else n - cut.

Fixpoint label_runs (k : nat) (counts : list nat) : list nat :=
  match counts with
  | [] => []
  | n :: rest => replicate n k ++ label_runs (S k) rest
  end.

(** [flow_from_directory] without [classes=]: the classes are the
    sub-directories of [directory] in sorted order, numbered from 0. *)
Definition directory_iterator (dg : datagen) (fs : filesystem)
    (directory : string) (args : flow_args) : result generator :=
  entries ← FS.listdir fs directory;
  let class_names :=
    List.filter (fun d => FS.isdir fs (os_path_join directory d))
                (sorted entries) in
  let count c :=
    match FS.listdir fs (os_path_join directory c) with
    | Ok files =>
        subset_count (subset args) (kw_float (dg_config dg) "validation_split")
          (length (List.filter valid_file files))
    | Raise _ => 0%nat
    end in
  Ok {| gen_config := dg_config dg;
        gen_args := args;
        class_indices := combine class_names (seq 0 (length class_names));
        classes := label_runs 0 (map count class_names) |}.

(** The library as released. *)
Definition keras : API :=
  {| ImageDataGenerator := construct init_parameters;
     flow_from_directory := directory_iterator |}.

(** The interface the trainer is written against: the same library with a
    [contrast_range] parameter. *)
Definition keras_contrast : API :=
  {| ImageDataGenerator := construct ("contrast_range" :: init_parameters);
     flow_from_directory := directory_iterator |}.

End Keras.

(** ** scikit-learn metrics *)

Module Sklearn.

(** [unique_labels(y_true, y_pred)]: the labels that occur, ascending. *)
Definition unique_labels (y_true y_pred : list nat) : list nat :=
  let all := (y_true ++ y_pred)%list in
  List.filter (fun k => existsb (Nat.eqb k) all)
              (seq 0 (S (foldr Nat.max 0%nat all))).

Definition count_pairs (y_true y_pred : list nat) (t p : nat) : nat :=
  length (List.filter (fun tp => Nat.eqb tp.1 t && Nat.eqb tp.2 p)
                      (combine y_true y_pred)).

(** [confusion_matrix(y_true, y_pred)] without [labels=]: one row and one
    column per occurring label; entry (i, j) counts the samples whose true
    label is the i-th and whose predicted label is the j-th. *)
Definition confusion_matrix (y_true y_pred : list nat) : list (list nat) :=
  let labels := unique_labels y_true y_pred in
  map (fun t => map (count_pairs y_true y_pred t) labels) labels.

Record API : Type := {
  classification_report :
    list nat -> list nat -> list string -> result string
}.

(** The report refuses [target_names] whose length differs from the number
    of occurring labels. *)
Definition reference : API :=
  {| classification_report := fun y_true y_pred target_names =>
       if (length (unique_labels y_true y_pred) =? length target_names)%nat
       then Ok "precision recall f1-score support"
       else Raise (Exception "Number of classes does not match size of target_names") |}.

End Sklearn.

(** ** Model loading and coremltools *)

Module CoreML.

(** The calls the two conversion routines make.  [save] tells what ends up
    at the given path ([None]: nothing is written) and whether the call
    raises; it touches no other path. *)
Record API : Type := {
  import_coremltools : result unit;
  load_model : filesystem -> string -> result keras_model;
  convert : keras_model -> convert_request -> result mlmodel;
  save : mlmodel -> string -> option content * result unit;
  getsize : filesystem -> string -> result Z;
  MLModel : filesystem -> string -> result mlmodel;
  describe : mlmodel -> result unit
}.

Definition save_io (ct : API) (b : mlmodel) (p : string) : io unit :=
  fun fs =>
    match save ct b p with
    | (Some c, r) => (FS.write fs p c, r)
    | (None, r) => (fs, r)
    end.

Definition read_model (fs : filesystem) (p : string) : result keras_model :=
  match fs !! p with
  | Some (File (SavedModel m)) => Ok m
  | _ => Raise (OSError p)
  end.

Definition read_bundle (fs : filesystem) (p : string) : result mlmodel :=
  match fs !! p with
  | Some (File (MLModelFile b)) => Ok b
  | _ => Raise (Exception p)
  end.

(** A converter that accepts every model whose operations it supports and
    records the request's inputs and class labels in the bundle. *)
Definition reference : API :=
  {| import_coremltools := Ok tt;
     load_model := read_model;
     convert := fun m req =>
       if supported_ops m then
         Ok {| ml_inputs := cr_inputs req;
               ml_class_labels := cr_class_labels req;
               ml_short_description := "";
               ml_author := "";
               ml_license := "";
               ml_version := "";
               ml_metadata := [];
               ml_input_description := [];
               ml_output_description := [] |}
       else Raise (Exception "unsupported operation");
     save := fun b p => (Some (MLModelFile b), Ok tt);
     getsize := fun fs p =>
       if FS.exists_ fs p then Ok 1%Z else Raise (FileNotFoundError p);
     MLModel := read_bundle;
     describe := fun _ => Ok tt |}.

(** Attribute and dictionary-item assignments on a converted model. *)
Definition set_info (b : mlmodel) (short_description author license version : string)
  : mlmodel :=
  {| ml_inputs := ml_inputs b;
     ml_class_labels := ml_class_labels b;
     ml_short_description := short_description;
     ml_author := author;
     ml_license := license;
     ml_version := version;
     ml_metadata := ml_metadata b;
     ml_input_description := ml_input_description b;
     ml_output_description := ml_output_description b |}.

Definition set_item {V} (d : list (string * V)) (k : string) (v : V)
  : list (string * V) :=
  List.filter (fun kv => negb (String.eqb kv.1 k)) d ++ [(k, v)].

Definition set_metadata (b : mlmodel) (md : list (string * pyval)) : mlmodel :=
  {| ml_inputs := ml_inputs b;
     ml_class_labels := ml_class_labels b;
     ml_short_description := ml_short_description b;
     ml_author := ml_author b;
     ml_license := ml_license b;
     ml_version := ml_version b;
     ml_metadata := md;
     ml_input_description := ml_input_description b;
     ml_output_description := ml_output_description b |}.

Definition set_input_description (b : mlmodel) (k v : string) : mlmodel :=
  {| ml_inputs := ml_inputs b;
     ml_class_labels := ml_class_labels b;
     ml_short_description := ml_short_description b;
     ml_author := ml_author b;
     ml_license := ml_license b;
     ml_version := ml_version b;
     ml_metadata := ml_metadata b;
     ml_input_description := set_item (ml_input_description b) k v;
     ml_output_description := ml_output_description b |}.

Definition set_output_description (b : mlmodel) (k v : string) : mlmodel :=
  {| ml_inputs := ml_inputs b;
     ml_class_labels := ml_class_labels b;
     ml_short_description := ml_short_description b;
     ml_author := ml_author b;
     ml_license := ml_license b;
     ml_version := ml_version b;
     ml_metadata := ml_metadata b;
     ml_input_description := ml_input_description b;
     ml_output_description := set_item (ml_output_description b) k v |}.

End CoreML.

(** ** train_model.py *)

Module TrainModel.

Definition SOIL_TYPES : list string :=
  ["clay"; "loam"; "sandy"; "silt"; "peat"; "chalk"].
Definition NUM_CLASSES : nat := length SOIL_TYPES.
Definition IMG_SIZE : Z * Z := (224, 224)%Z.

(** The two module-level settings that [main] overwrites from the command
    line. *)
Record globals : Type := {
  BATCH_SIZE : Z;
  EPOCHS : Z
}.
Definition default_globals : globals := {| BATCH_SIZE := 32; EPOCHS := 50 |}.

(** *** validate_dataset *)

Definition image_suffixes : list string := [".jpg"; ".jpeg"; ".png"; ".bmp"].

(** What the loop prints for one soil type. *)
Inductive class_report : Type :=
| Found (soil_type : string) (images : nat)
| NotFound (soil_type : string).

Definition count_images (names : list string) : nat :=
  length (List.filter (fun f => endswith_any (lower f) image_suffixes) names).

(** The [for soil_type in SOIL_TYPES] loop, threading [found_classes] and
    the printed lines. *)
Fixpoint scan_classes (fs : filesystem) (data_dir : string)
    (types : list string) (found : gset string) (out : list class_report)
  : result (gset string * list class_report) :=
  match types with
  | [] => Ok (found, out)
  | soil_type :: rest =>
      let class_dir := os_path_join data_dir soil_type in
      if FS.exists_ fs class_dir then
        names ← FS.listdir fs class_dir;
        scan_classes fs data_dir rest ({[soil_type]} ∪ found)
          (out ++ [Found soil_type (count_images names)])
      else
        scan_classes fs data_dir rest found (out ++ [NotFound soil_type])
  end.

Definition validate_dataset_report (fs : filesystem) (data_dir : string)
  : result (bool * list class_report) :=
  if negb (FS.exists_ fs data_dir) then Raise (FileNotFoundError data_dir)
  else
    let required_classes : gset string := list_to_set SOIL_TYPES in
    r ← scan_classes fs data_dir SOIL_TYPES ∅ [];
    let missing_classes := required_classes ∖ r.1 in
    if decide (missing_classes = ∅) then Ok (true, r.2)
    else Raise (ValueError missing_classes).

Definition validate_dataset (fs : filesystem) (data_dir : string)
  : result bool :=
  r ← validate_dataset_report fs data_dir; Ok r.1.

(** *** create_data_generators *)

Definition flow_args_for (g : globals) (subset : string) (shuffle : bool)
  : Keras.flow_args :=
  {| Keras.target_size := IMG_SIZE;
     Keras.batch_size := BATCH_SIZE g;
     Keras.class_mode := "categorical";
     Keras.subset := subset;
     Keras.shuffle := shuffle;
     Keras.seed := 42 |}.

Definition train_datagen_kwargs (validation_split : Q) : Keras.kwargs :=
  [ ("rescale", VFloat (1 # 255));
    ("rotation_range", VInt 20);
    ("width_shift_range", VFloat 0.2);
    ("height_shift_range", VFloat 0.2);
    ("shear_range", VFloat 0.2);
    ("zoom_range", VFloat 0.2);
    ("horizontal_flip", VBool true);
    ("vertical_flip", VBool true);
    ("brightness_range", VList [VFloat 0.8; VFloat 1.2]);
    ("contrast_range", VList [VFloat 0.8; VFloat 1.2]);
    ("fill_mode", VStr "nearest");
    ("validation_split", VFloat validation_split) ].

Definition val_datagen_kwargs (validation_split : Q) : Keras.kwargs :=
  [ ("rescale", VFloat (1 # 255));
    ("validation_split", VFloat validation_split) ].

Definition create_data_generators (keras : Keras.API) (g : globals)
    (fs : filesystem) (data_dir : string) (validation_split : Q)
  : result (Keras.generator * Keras.generator) :=
  train_datagen ←
    Keras.ImageDataGenerator keras (train_datagen_kwargs validation_split);
  val_datagen ←
    Keras.ImageDataGenerator keras (val_datagen_kwargs validation_split);
  train_generator ←
    Keras.flow_from_directory keras train_datagen fs data_dir
      (flow_args_for g "training" true);
  validation_generator ←
    Keras.flow_from_directory keras val_datagen fs data_dir
      (flow_args_for g "validation" false);
  Ok (train_generator, validation_generator).


(** *** build_model, setup_callbacks, train_model *)

Inductive callback : Type :=
| EarlyStopping (monitor : string) (patience : Z) (restore_best_weights : bool)
| ReduceLROnPlateau (monitor : string) (factor : Q) (patience : Z) (min_lr : Q)
| ModelCheckpoint (filepath monitor : string) (save_best_only : bool).

(** The keyword arguments of [model.fit]. *)
Record fit_call : Type := {
  steps_per_epoch : Z;
  epochs : Z;
  validation_steps : Z;
  callbacks : list callback
}.

(** Everything outside the two scripts: the libraries and the clock. *)
Record runtime : Type := {
  rt_keras : Keras.API;
  rt_sequential : list (option Z) -> nat -> result keras_model;
  rt_fit : keras_model -> Keras.generator -> Keras.generator -> fit_call
           -> io keras_model;
  rt_sklearn : Sklearn.API;
  rt_json : pyval -> list string;
  rt_now : string;
  rt_coreml : CoreML.API
}.

Definition build_model (rt : runtime) : result keras_model :=
  rt_sequential rt [None; Some IMG_SIZE.1; Some IMG_SIZE.2; Some 3%Z] NUM_CLASSES.

Definition setup_callbacks (output_dir : string) : list callback :=
  [ EarlyStopping "val_loss" 10 true;
    ReduceLROnPlateau "val_loss" 0.5 5 (1 # 10000000);
    ModelCheckpoint (os_path_join output_dir "best_model.h5") "val_accuracy" true ].

(** The call [train_model] makes: [max(1, samples // BATCH_SIZE)] for each
    of the two streams. *)
Definition train_model_call (g : globals) (output_dir : string)
    (train_generator validation_generator : Keras.generator)
  : result fit_call :=
  let callbacks := setup_callbacks output_dir in
  q_train ← floordiv (Keras.samples train_generator) (BATCH_SIZE g);
  let steps_per_epoch := Z.max 1 q_train in
  q_val ← floordiv (Keras.samples validation_generator) (BATCH_SIZE g);
  let validation_steps := Z.max 1 q_val in
  Ok {| steps_per_epoch := steps_per_epoch;
        epochs := EPOCHS g;
        validation_steps := validation_steps;
        callbacks := callbacks |}.

Definition train_model (rt : runtime) (g : globals) (output_dir : string)
    (model : keras_model)
    (train_generator validation_generator : Keras.generator)
  : io keras_model :=
  call ← lift (train_model_call g output_dir train_generator validation_generator);
  rt_fit rt model train_generator validation_generator call.

(** *** evaluate_model *)

(** [model.predict(generator, steps=steps)] on an unshuffled generator:
    the outputs for the samples of the first [steps] batches, up to the end
    of the stream.  A pass that yields no sample is an error. *)
Definition predict (model : keras_model) (gen : Keras.generator) (steps : Z)
  : result (list (list Q)) :=
  let n := length (Keras.classes gen) in
  let drawn :=
    Nat.min (Z.to_nat (steps * Keras.batch_size (Keras.gen_args gen))) n in
  if (drawn =? 0)%nat then Raise (Exception "empty prediction pass")
  else Ok (map (outputs model) (seq 0 drawn)).

(** [np.argmax]: the first position of the largest entry. *)
Fixpoint argmax_from (best : Q) (best_i i : nat) (row : list Q) : nat :=
  match row with
  | [] => best_i
  | x :: rest =>
      if Qle_bool x best then argmax_from best best_i (S i) rest
      else argmax_from x i (S i) rest
  end.

Definition argmax (row : list Q) : nat :=
  match row with
  | [] => 0%nat
  | x :: rest => argmax_from x 0 1 rest
  end.

Definition matches (true_classes predicted_classes : list nat) : nat :=
  length (List.filter (fun tp => Nat.eqb tp.1 tp.2)
                      (combine true_classes predicted_classes)).

(** [np.mean(true_classes == predicted_classes)] as an exact fraction. *)
Definition mean_equal (true_classes predicted_classes : list nat) : Q :=
  Z.of_nat (matches true_classes predicted_classes)
  # Pos.of_nat (length predicted_classes).

Record evaluation : Type := {
  accuracy : Q;
  classification_report : string;
  confusion_matrix : list (list nat)
}.

Definition plot_confusion_matrix (output_dir : string) (cm : list (list nat))
    (class_names : list string) : io unit :=
  writing [FS.WriteFile (os_path_join output_dir "confusion_matrix.png") Blob].

Definition evaluate_model (rt : runtime) (g : globals) (output_dir : string)
    (model : keras_model) (validation_generator : Keras.generator)
  : io evaluation :=
  q ← lift (floordiv (Keras.samples validation_generator) (BATCH_SIZE g));
  let validation_steps := Z.max 1 q in
  predictions ← lift (predict model validation_generator validation_steps);
  let predicted_classes := map argmax predictions in
  let true_classes :=
    take (length predicted_classes) (Keras.classes validation_generator) in
  let class_labels := map fst (Keras.class_indices validation_generator) in
  _ ← lift (Sklearn.classification_report (rt_sklearn rt)
              true_classes predicted_classes class_labels);
  let cm := Sklearn.confusion_matrix true_classes predicted_classes in
  _ ← plot_confusion_matrix output_dir cm class_labels;
  let final_accuracy := mean_equal true_classes predicted_classes in
  report ← lift (Sklearn.classification_report (rt_sklearn rt)
                   true_classes predicted_classes class_labels);
  mret {| accuracy := final_accuracy;
          classification_report := report;
          confusion_matrix := cm |}.

(** [self.history] is set whenever [train_model] has returned. *)
Definition plot_training_history (output_dir : string) : io unit :=
  writing [FS.WriteFile (os_path_join output_dir "training_history.png") Blob].

(** *** save_model_and_metadata *)

Definition evaluation_dict (ev : evaluation) : pyval :=
  VDict [ ("accuracy", VFloat (accuracy ev));
          ("classification_report", VStr (classification_report ev));
          ("confusion_matrix",
           VList (map (fun row => VList (map (fun c => VInt (Z.of_nat c)) row))
                      (confusion_matrix ev))) ].

Definition metadata_dict (rt : runtime) (g : globals) (data_dir : string)
    (evaluation_results : evaluation) : pyval :=
  VDict [ ("model_name", VStr "SoilVision Classifier");
          ("version", VStr "1.0.0");
          ("created_date", VStr (rt_now rt));
          ("soil_types", VStrs SOIL_TYPES);
          ("num_classes", VInt (Z.of_nat NUM_CLASSES));
          ("input_shape", VList [VInt IMG_SIZE.1; VInt IMG_SIZE.2; VInt 3]);
          ("training_data", VStr data_dir);
          ("evaluation_results", evaluation_dict evaluation_results);
          ("hyperparameters",
           VDict [ ("batch_size", VInt (BATCH_SIZE g));
                   ("epochs", VInt (EPOCHS g));
                   ("image_size", VList [VInt IMG_SIZE.1; VInt IMG_SIZE.2]);
                   ("validation_split", VFloat 0.2) ]) ].

Definition model_path (output_dir : string) : string :=
  os_path_join output_dir "soil_classifier_model.h5".
Definition metadata_path (output_dir : string) : string :=
  os_path_join output_dir "model_metadata.json".
Definition coreml_path (output_dir : string) : string :=
  os_path_join output_dir "SoilClassifier.mlmodel".

(** [with open(metadata_path, 'w') as f: json.dump(metadata, f, indent=2)]:
    the file is opened at [metadata_path] itself, receives the encoder's
    chunks one [f.write] after the other, and is closed. *)
Definition json_dump (rt : runtime) (v : pyval) (dir path : string)
  : list FS.step :=
  (FS.Open dir path :: map (FS.Write path) (rt_json rt v)) ++ [FS.Close path].

Definition save_steps (rt : runtime) (g : globals) (data_dir output_dir : string)
    (model : keras_model) (evaluation_results : evaluation) : list FS.step :=
  FS.Save output_dir (model_path output_dir) (SavedModel model)
  :: json_dump rt (metadata_dict rt g data_dir evaluation_results)
               output_dir (metadata_path output_dir).

Definition save_model_and_metadata (rt : runtime) (g : globals)
    (data_dir output_dir : string) (model : keras_model)
    (evaluation_results : evaluation) : io unit :=
  fun fs =>
    let run :=
      FS.run_steps (fs, "")
        (save_steps rt g data_dir output_dir model evaluation_results) in
    (run.1.1, run.2).

(** *** convert_to_coreml (the trainer's method) *)

Definition trainer_request : convert_request :=
  {| cr_inputs :=
       Some [ {| it_name := "input";
                 it_shape := [Some IMG_SIZE.1; Some IMG_SIZE.2; Some 3%Z];
                 it_scale := 1 # 255;
                 it_bias := None |} ];
     cr_class_labels := SOIL_TYPES;
     cr_convert_to := None |}.

Definition convert_to_coreml (ct : CoreML.API) (output_dir : string) : io bool :=
  try_except_io
    (_ ← lift (CoreML.import_coremltools ct);
     model ← reading (fun fs => CoreML.load_model ct fs (model_path output_dir));
     coreml_model ← lift (CoreML.convert ct model trainer_request);
     let coreml_model :=
       CoreML.set_info coreml_model "Soil type classification model"
                       "SoilVision" "MIT" "1.0" in
     _ ← CoreML.save_io ct coreml_model (coreml_path output_dir);
     _ ← reading (fun fs => CoreML.getsize ct fs (coreml_path output_dir));
     mret true)
    (fun _ => mret false).

(** *** main *)

Record arguments : Type := {
  arg_data_dir : string;
  arg_output_dir : string;
  arg_epochs : Z;
  arg_batch_size : Z
}.

(** [SoilClassifierTrainer.__init__] *)
Definition trainer_init (output_dir : string) : io unit :=
  fun fs =>
    match FS.makedirs fs output_dir with
    | Ok fs' => (fs', Ok tt)
    | Raise e => (fs, Raise e)
    end.

(** The stages of [main] up to and including the persister. *)
Definition train_and_save (rt : runtime) (g : globals) (args : arguments)
  : io unit :=
  let data_dir := arg_data_dir args in
  let output_dir := arg_output_dir args in
  _ ← trainer_init output_dir;
  _ ← reading (fun fs => validate_dataset fs data_dir);
  gens ← reading (fun fs =>
            create_data_generators (rt_keras rt) g fs data_dir 0.2);
  model ← lift (build_model rt);
  model ← train_model rt g output_dir model gens.1 gens.2;
  evaluation_results ← evaluate_model rt g output_dir model gens.2;
  _ ← plot_training_history output_dir;
  save_model_and_metadata rt g data_dir output_dir model evaluation_results.

(** The body of [main] from the [try] block on, for a parsed command line. *)
Definition main_body (rt : runtime) (args : arguments) : filesystem -> filesystem * exit_status :=
  fun fs =>
    let g := {| BATCH_SIZE := arg_batch_size args; EPOCHS := arg_epochs args |} in
    match
      (_ ← train_and_save rt g args;
       _ ← convert_to_coreml (rt_coreml rt) (arg_output_dir args);
       mret tt) fs
    with
    | (fs', Ok _) => (fs', Completed)
    | (fs', Raise _) => (fs', Exit 1)
    end.

(** The names in the statements of [main], lines 422-472: those a
    statement binds, then those it reads. *)
Definition main_names : list stmt :=
  [ Names 422 ["parser"] ["argparse"];
    Names 423 [] ["parser"; "str"];
    Names 425 [] ["parser"; "str"];
    Names 427 [] ["parser"; "int"; "EPOCHS"; "EPOCHS"];
    Names 429 [] ["parser"; "int"; "BATCH_SIZE"; "BATCH_SIZE"];
    Names 432 ["args"] ["parser"];
    GlobalDecl 435 ["EPOCHS"; "BATCH_SIZE"];
    Names 436 ["EPOCHS"] ["args"];
    Names 437 ["BATCH_SIZE"] ["args"];
    Names 441 ["trainer"] ["SoilClassifierTrainer"; "args"; "args"];
    Names 444 [] ["trainer"];
    Names 447 ["train_generator"; "validation_generator"] ["trainer"];
    Names 450 [] ["trainer"];
    Names 453 [] ["trainer"; "train_generator"; "validation_generator"];
    Names 456 ["evaluation_results"] ["trainer"; "validation_generator"];
    Names 459 [] ["trainer"];
    Names 462 [] ["trainer"; "evaluation_results"];
    Names 465 [] ["trainer"];
    Names 467 [] ["print"];
    Names 468 [] ["print"; "args"];
    Names 470 ["e"] ["Exception"];
    Names 471 [] ["print"; "e"];
    Names 472 [] ["sys"] ].

(** [python train_model.py]: the module is compiled, and only then is
    anything of it run.  A module the compiler rejects ends the process
    with the [SyntaxError] and has run nothing. *)
Definition main (rt : runtime) (args : arguments) : filesystem -> filesystem * exit_status :=
  fun fs =>
    match symtable [] [] main_names with
    | Ok _ => main_body rt args fs
    | Raise e => (fs, Uncaught e)
    end.

End TrainModel.

(** ** convert_to_coreml.py *)

Module ConvertToCoreml.

Definition default_class_labels : list string :=
  ["clay"; "loam"; "sandy"; "silt"; "peat"; "chalk"].

(** [len(input_shape) == 4 and input_shape[1] >= 224]; comparing [None]
    with an integer is a [TypeError]. *)
Definition is_image_input (input_shape : list (option Z)) : result bool :=
  if (length input_shape =? 4)%nat then
    match input_shape !! 1%nat with
    | Some (Some height) => Ok (224 <=? height)%Z
    | _ => Raise (TypeError "'>=' not supported between 'NoneType' and 'int'")
    end
  else Ok false.

(** The [ct.convert] call of the image branch: shape (width, height,
    channels), scale 1/255, bias [0, 0, 0]. *)
Definition image_request (input_shape : list (option Z))
    (class_labels : list string) : convert_request :=
  let image_size := [mjoin (input_shape !! 2%nat); mjoin (input_shape !! 1%nat)] in
  {| cr_inputs :=
       Some [ {| it_name := "input";
                 it_shape := image_size ++ [mjoin (input_shape !! 3%nat)];
                 it_scale := 1 # 255;
                 it_bias := Some [0; 0; 0]%Z |} ];
     cr_class_labels := class_labels;
     cr_convert_to := Some "mlprogram" |}.

(** The [ct.convert] call of the other branch: no [inputs=]. *)
Definition generic_request (class_labels : list string) : convert_request :=
  {| cr_inputs := None;
     cr_class_labels := class_labels;
     cr_convert_to := Some "mlprogram" |}.

Definition conversion_request (input_shape : list (option Z))
    (class_labels : list string) : result convert_request :=
  image ← is_image_input input_shape;
  Ok (if image : bool then image_request input_shape class_labels
      else generic_request class_labels).

Definition test_coreml_model (ct : CoreML.API) (model_path : string)
    (class_labels : list string) : io unit :=
  try_except_io
    (_ ← lift (CoreML.import_coremltools ct);
     model ← reading (fun fs => CoreML.MLModel ct fs model_path);
     _ ← lift (CoreML.describe ct model);
     mret tt)
    (fun _ => mret tt).

Definition bundle_metadata (now : string) (class_labels : list string)
    (input_shape : list (option Z)) : list (string * pyval) :=
  [ ("created_date", VStr now);
    ("framework", VStr "TensorFlow/Keras");
    ("soil_types", VStrs class_labels);
    ("input_shape", VShape input_shape) ].

(** The attribute assignments between [ct.convert] and [save]. *)
Definition stamp (now : string) (class_labels : list string)
    (input_shape : list (option Z)) (coreml_model : mlmodel) : mlmodel :=
  let m := CoreML.set_info coreml_model
             "Soil type classification model for SoilVision iOS app"
             "SoilVision Team" "MIT" "1.0.0" in
  let m := CoreML.set_metadata m (bundle_metadata now class_labels input_shape) in
  let m := CoreML.set_input_description m "input" "RGB image of soil sample" in
  let m := CoreML.set_output_description m "classLabel" "Predicted soil type" in
  CoreML.set_output_description m "classProbability"
    "Probability distribution over soil types".

Definition convert_to_coreml (ct : CoreML.API) (now : string)
    (model_path : string) (output_path : option string)
    (class_labels : option (list string)) : io (option string) :=
  let class_labels :=
    match class_labels with
    | None => ["clay"; "loam"; "sandy"; "silt"; "peat"; "chalk"]
    | Some l => l
    end in
  let output_path :=
    match output_path with
    | None => replace model_path ".h5" ".mlmodel"
    | Some p => p
    end in
  try_except_io
    (model ← reading (fun fs => CoreML.load_model ct fs model_path);
     let input_shape := input_shape model in
     request ← lift (conversion_request input_shape class_labels);
     coreml_model ← lift (CoreML.convert ct model request);
     let coreml_model := stamp now class_labels input_shape coreml_model in
     _ ← CoreML.save_io ct coreml_model output_path;
     _ ← reading (fun fs => CoreML.getsize ct fs output_path);
     _ ← test_coreml_model ct output_path class_labels;
     mret (Some output_path))
    (fun _ => mret None).

(** Everything outside the script. *)
Record runtime : Type := {
  rt_coreml : CoreML.API;
  rt_sequential : list (option Z) -> nat -> result keras_model;
  rt_now : string
}.

Definition sample_path : string := "./sample_soil_model.h5".

Definition create_sample_model (rt : runtime) : io string :=
  model ← lift (rt_sequential rt [None; Some 224; Some 224; Some 3]%Z 6%nat);
  _ ← writing [FS.WriteFile sample_path (SavedModel model)];
  mret sample_path.

(** The parsed command line; [default_arguments] are argparse's defaults. *)
Record arguments : Type := {
  arg_model_path : option string;
  arg_output_path : option string;
  arg_create_sample : bool;
  arg_class_labels : list string
}.

Definition default_arguments : arguments :=
  {| arg_model_path := None;
     arg_output_path := None;
     arg_create_sample := false;
     arg_class_labels := default_class_labels |}.

Definition finish {A} (r : filesystem * result A) : filesystem * exit_status :=
  match r with
  | (fs, Ok _) => (fs, Completed)
  | (fs, Raise e) => (fs, Uncaught e)
  end.

Definition main (rt : runtime) (args : arguments)
  : filesystem -> filesystem * exit_status :=
  fun fs =>
    if arg_create_sample args then
      finish
        ((sample_path ← create_sample_model rt;
          convert_to_coreml (rt_coreml rt) (rt_now rt) sample_path
            (Some "SampleSoilClassifier.mlmodel")
            (Some (arg_class_labels args))) fs)
    else
      match arg_model_path args with
      | Some model_path =>
          if String.eqb model_path "" then (fs, Exit 1)
          else if negb (FS.exists_ fs model_path) then (fs, Exit 1)
          else
            finish
              (convert_to_coreml (rt_coreml rt) (rt_now rt) model_path
                 (arg_output_path args) (Some (arg_class_labels args)) fs)
      | None => (fs, Exit 1)
      end.

End ConvertToCoreml.

(** ** Vocabulary of the properties *)

Import TrainModel.

(** *** The dataset validator *)

Definition class_dir_of (data_dir soil_type : string) : string :=
  os_path_join data_dir soil_type.

(** The image count [validate_dataset] prints for a class directory. *)
Definition images_in (fs : filesystem) (class_dir : string) : nat :=
  match FS.listdir fs class_dir with
  | Ok names => count_images names
  | Raise _ => 0%nat
  end.

(** No class path is taken by something that is not a directory. *)
Definition no_stray_file (fs : filesystem) (data_dir : string)
    (types : list string) : Prop :=
  forall c x, c ∈ types -> fs !! class_dir_of data_dir c <> Some (File x).

(** The soil types that have nothing at their class path. *)
Definition absent (fs : filesystem) (data_dir : string) (types : list string)
  : list string :=
  List.filter (fun c => negb (FS.exists_ fs (class_dir_of data_dir c))) types.

(** *** The data pipeline *)

(** The index-to-label order a generator resolved: the keys of
    [class_indices] in index order. *)
Definition label_order (gen : Keras.generator) : list string :=
  map fst (Keras.class_indices gen).

(** The sub-directories of [directory] in sorted order. *)
Definition sorted_subdirectories (fs : filesystem) (directory : string)
  : list string :=
  match FS.listdir fs directory with
  | Ok entries =>
      List.filter (fun d => FS.isdir fs (os_path_join directory d))
                  (sorted entries)
  | Raise _ => []
  end.

(** The order of [sorted]. *)
Definition leb_true (a b : string) : Prop := String.leb a b = true.

(** *** Training steps *)

(** [s] is [n] divided by [b] rounded down, but at least 1. *)
Definition rounded_down_min_1 (n b s : Z) : Prop :=
  (b <= n -> b * s <= n < b * (s + 1))%Z /\ (n < b -> s = 1)%Z.

(** *** The converter's input configuration *)

(** An image input with the unit-range rescale and zero bias. *)
Definition image_input (req : convert_request) : Prop :=
  exists shape,
    cr_inputs req
    = Some [ {| it_name := "input"; it_shape := shape;
                it_scale := 1 # 255; it_bias := Some [0; 0; 0]%Z |} ].

Definition generic_input (req : convert_request) : Prop :=
  cr_inputs req = None.

(** Four dimensions, and a known height of at least 224. *)
Definition tall_image_shape (input_shape : list (option Z)) : Prop :=
  length input_shape = 4%nat
  /\ exists height, input_shape !! 1%nat = Some (Some height) /\ (224 <= height)%Z.

(** Four dimensions, and the smaller of height and width at least 224. *)
Definition min_spatial_dimension_224 (input_shape : list (option Z)) : Prop :=
  length input_shape = 4%nat
  /\ exists height width,
       input_shape !! 1%nat = Some (Some height)
       /\ input_shape !! 2%nat = Some (Some width)
       /\ (224 <= Z.min height width)%Z.

(** [save] stores the model object it is called on. *)
Definition saves_model (ct : CoreML.API) : Prop :=
  forall b p, (CoreML.save ct b p).1 = Some (MLModelFile b).

(** *** The persister *)

Definition text_at (fs : filesystem) (p : string) : option string :=
  match fs !! p with
  | Some (File (Text t)) => Some t
  | _ => None
  end.

Definition join_chunks (chunks : list string) : string :=
  foldr append "" chunks.

(** A run of [ops] is atomic at path [p] when every state a reader can meet
    shows at [p] either what was there before or what is there in the end. *)
Definition atomic_at (p : string) (fs : filesystem) (steps : list FS.step)
  : Prop :=
  forall st, st ∈ FS.states fs steps ->
    st !! p = fs !! p \/ st !! p = (FS.run_steps (fs, "") steps).1.1 !! p.

(** *** The evaluation *)

Definition row_sums (cm : list (list nat)) : list nat := map sum_list cm.

Fixpoint diagonal_from (i : nat) (cm : list (list nat)) : list nat :=
  match cm with
  | [] => []
  | row :: rest => nth i row 0%nat :: diagonal_from (S i) rest
  end.

Definition trace (cm : list (list nat)) : nat := sum_list (diagonal_from 0 cm).

Definition total (cm : list (list nat)) : nat := sum_list (row_sums cm).

(** How many of [classes] carry the label [k]. *)
Definition count_label (k : nat) (classes : list nat) : nat :=
  length (List.filter (fun c => Nat.eqb c k) classes).

(** The number of validation samples that [evaluate_model] runs through the
    model: [max(1, samples // BATCH_SIZE)] batches, cut at the end of the
    stream. *)
Definition evaluated (g : globals) (validation_generator : Keras.generator)
  : nat :=
  Nat.min
    (Z.to_nat (Z.max 1 (Keras.samples validation_generator / BATCH_SIZE g)
               * Keras.batch_size (Keras.gen_args validation_generator)))
    (length (Keras.classes validation_generator)).

(** ** Concrete inputs *)

Module Examples.

Definition class_dirs (files : string -> list string) : list (string * node) :=
  map (fun c => (os_path_join "dataset" c, Dir (files c))) SOIL_TYPES.

(** A root with the six class directories and no file in any of them. *)
Definition empty_dataset : filesystem :=
  list_to_map (("dataset", Dir SOIL_TYPES) :: class_dirs (fun _ => [])).

Definition five_images : list string :=
  ["s1.jpg"; "s2.jpg"; "s3.png"; "s4.PNG"; "s5.bmp"].

(** Five images per class, ten for silt, and a text file that is no image. *)
Definition dataset : filesystem :=
  list_to_map
    (("dataset", Dir SOIL_TYPES)
     :: class_dirs (fun c =>
          if String.eqb c "silt"
          then (five_images ++ ["s6.jpg"; "s7.jpg"; "s8.jpg"; "s9.jpg"; "s10.jpeg";
                                "notes.txt"])%list
          else five_images)).

(** The root of [dataset] where [clay] is a regular file. *)
Definition stray_clay : filesystem :=
  <["dataset/clay" := File Blob]> dataset.

(** A saved, convertible 224 x 224 RGB classifier at [model.h5]. *)
Definition saved_model : keras_model :=
  {| input_shape := [None; Some 224; Some 224; Some 3]%Z;
     supported_ops := true;
     outputs := fun _ => [] |}.

Definition model_store : filesystem :=
  {[ "model.h5" := File (SavedModel saved_model) ]}.

(** A small JSON encoder standing for [json.dump]'s: one chunk per token. *)
Definition quote : string := String (ascii_of_nat 34) "".
Definition quoted (s : string) : string := quote ++ s ++ quote.

Fixpoint json_chunks (v : pyval) : list string :=
  match v with
  | VNone => ["null"]
  | VBool b => [if b then "true" else "false"]
  | VInt z => [pretty z]
  | VFloat q => [pretty (Qnum q) ++ "/" ++ pretty (Zpos (Qden q))]
  | VStr s => [quoted s]
  | VList l => ("[" :: concat (map json_chunks l) ++ ["]"])%list
  | VDict items =>
      ("{" :: concat (map (fun kv => let '(k, x) := kv in
                             quoted k :: ": " :: json_chunks x)
                          items)
           ++ ["}"])%list
  end.

Definition one_hot (k : nat) : list Q :=
  map (fun i => if Nat.eqb i k then 1%Q else 0%Q) (seq 0 6).

(** What the trained network answers on the validation stream. *)
Definition trained_outputs (i : nat) : list Q :=
  match i with
  | 0%nat => one_hot 4
  | 1%nat => one_hot 5
  | 2%nat => one_hot 2
  | _ => one_hot 3
  end.

Definition trained_model : keras_model :=
  {| input_shape := [None; Some 224; Some 224; Some 3]%Z;
     supported_ops := true;
     outputs := trained_outputs |}.

Definition small_globals : globals := {| BATCH_SIZE := 4; EPOCHS := 2 |}.

(** The validation stream of [dataset] with the default batch size: one
    sample per class, two for silt. *)
Definition validation_stream : Keras.generator :=
  {| Keras.gen_config := val_datagen_kwargs 0.2;
     Keras.gen_args := flow_args_for default_globals "validation" false;
     Keras.class_indices :=
       combine ["chalk"; "clay"; "loam"; "peat"; "sandy"; "silt"] (seq 0 6);
     Keras.classes := [0; 1; 2; 3; 4; 5; 5]%nat |}.

(** The same stream as made with [--batch_size 4]. *)
Definition small_validation_stream : Keras.generator :=
  {| Keras.gen_config := val_datagen_kwargs 0.2;
     Keras.gen_args := flow_args_for small_globals "validation" false;
     Keras.class_indices :=
       combine ["chalk"; "clay"; "loam"; "peat"; "sandy"; "silt"] (seq 0 6);
     Keras.classes := [0; 1; 2; 3; 4; 5; 5]%nat |}.

(** A converter environment without coremltools installed. *)
Definition no_coremltools : CoreML.API :=
  {| CoreML.import_coremltools := Raise (ImportError "coremltools");
     CoreML.load_model := CoreML.load_model CoreML.reference;
     CoreML.convert := CoreML.convert CoreML.reference;
     CoreML.save := CoreML.save CoreML.reference;
     CoreML.getsize := CoreML.getsize CoreML.reference;
     CoreML.MLModel := CoreML.MLModel CoreML.reference;
     CoreML.describe := CoreML.describe CoreML.reference |}.

(** A converter whose reloaded bundle cannot be inspected. *)
Definition failing_self_test : CoreML.API :=
  {| CoreML.import_coremltools := Ok tt;
     CoreML.load_model := CoreML.load_model CoreML.reference;
     CoreML.convert := CoreML.convert CoreML.reference;
     CoreML.save := CoreML.save CoreML.reference;
     CoreML.getsize := CoreML.getsize CoreML.reference;
     CoreML.MLModel := CoreML.MLModel CoreML.reference;
     CoreML.describe := fun _ => Raise (Exception "no attribute metadata") |}.

(** A run-time environment: Keras with the [contrast_range] parameter, a
    [fit] that yields [trained_outputs], and the converter [ct]. *)
Definition runtime_with (ct : CoreML.API) : runtime :=
  {| rt_keras := Keras.keras_contrast;
     rt_sequential := fun shape units =>
       Ok {| input_shape := shape; supported_ops := true;
             outputs := fun _ => replicate units (1 # 6) |};
     rt_fit := fun model _ _ _ =>
       mret {| input_shape := input_shape model;
               supported_ops := supported_ops model;
               outputs := trained_outputs |};
     rt_sklearn := Sklearn.reference;
     rt_json := json_chunks;
     rt_now := "2024-05-01T10:00:00";
     rt_coreml := ct |}.

Definition an_evaluation : evaluation :=
  {| accuracy := 1 # 2;
     classification_report := "precision recall f1-score support";
     confusion_matrix := [[1; 0]; [1; 0]]%nat |}.

(** An output directory that already holds a complete metadata record. *)
Definition earlier_run : filesystem :=
  {[ "out" := Dir ["model_metadata.json"];
     "out/model_metadata.json" := File (Text "{ earlier complete record }") ]}.

End Examples.

(** ** Further vocabulary and inputs *)

(** What sits at a path: nothing, a regular file, or a directory. *)
Definition node_kind (o : option node) : option bool :=
  match o with
  | None => None
  | Some (File _) => Some false
  | Some (Dir _) => Some true
  end.

(** Two file systems show the same layout under [data_dir]: the root exists
    in both or in neither, and each class path holds the same kind of node. *)
Definition same_layout (fs1 fs2 : filesystem) (data_dir : string) : Prop :=
  FS.exists_ fs1 data_dir = FS.exists_ fs2 data_dir
  /\ forall c, c ∈ SOIL_TYPES ->
       node_kind (fs1 !! class_dir_of data_dir c)
       = node_kind (fs2 !! class_dir_of data_dir c).

(** The scan of two file systems with the same layout ends the same way,
    counts apart. *)
Definition same_scan (r1 r2 : result (gset string * list class_report)) : Prop :=
  match r1, r2 with
  | Ok a, Ok b => a.1 = b.1
  | Raise e1, Raise e2 => e1 = e2
  | _, _ => False
  end.

(** [old in s]: [old] occurs somewhere in [s]. *)
Fixpoint occurs (old s : string) : bool :=
  String.prefix old s
  || match s with
     | EmptyString => false
     | String _ s' => occurs old s'
     end.

(** The path the standalone converter writes to. *)
Definition resolved_output_path (model_path : string)
    (output_path : option string) : string :=
  match output_path with
  | None => replace model_path ".h5" ".mlmodel"
  | Some p => p
  end.

Module MoreExamples.

(** [Examples.dataset] without its peat directory. *)
Definition dataset_without_peat : filesystem :=
  delete "dataset/peat" Examples.dataset.

(** A model saved under a name without the [.h5] extension. *)
Definition keras_store : filesystem :=
  {[ "model.keras" := File (SavedModel Examples.saved_model) ]}.

(** An output directory as the persister leaves it. *)
Definition persisted : filesystem :=
  {[ "out/soil_classifier_model.h5" := File (SavedModel Examples.trained_model);
     "out/model_metadata.json" := File (Text "{}") ]}.

(** A saved model with a 128 x 128 input, below the image threshold. *)
Definition small_model : keras_model :=
  {| input_shape := [None; Some 128; Some 128; Some 3]%Z;
     supported_ops := true;
     outputs := fun _ => [] |}.

Definition small_store : filesystem :=
  {[ "model.h5" := File (SavedModel small_model) ]}.

End MoreExamples.

(** * Properties *)

(** ** Running code in the two monads *)

Lemma io_bind_Ok {A B} (c : io A) (k : A -> io B) fs fs' a :
  c fs = (fs', Ok a) -> (c ≫= k) fs = k a fs'.
Proof. intros H. unfold mbind, io_bind. rewrite H. reflexivity. Qed.

(** ** The dataset validator *)

Section Validator.

Variable fs : filesystem.
Variable data_dir : string.

Lemma scan_classes_dirs types found out :
  (forall c, c ∈ types -> FS.isdir fs (class_dir_of data_dir c) = true) ->
  scan_classes fs data_dir types found out
  = Ok (list_to_set types ∪ found,
        (out ++ map (fun c => Found c (images_in fs (class_dir_of data_dir c)))
                    types)%list).
Proof.
  revert found out. induction types as [|c types IH]; intros found out Hdirs.
  - simpl. rewrite app_nil_r. f_equal. f_equal. set_solver.
  - assert (Hc : FS.isdir fs (class_dir_of data_dir c) = true)
      by (apply Hdirs; set_solver).
    unfold FS.isdir, class_dir_of in Hc.
    destruct (fs !! os_path_join data_dir c) as [[x|entries]|] eqn:E;
      try discriminate.
    cbn [scan_classes]. unfold FS.exists_, FS.listdir. rewrite E. cbn.
    rewrite IH by (intros; apply Hdirs; set_solver).
    f_equal. f_equal.
    + set_solver.
    + rewrite <- app_assoc. cbn. unfold images_in, class_dir_of, FS.listdir.
      rewrite E. reflexivity.
Qed.

Lemma elem_of_absent types y :
  y ∈ absent fs data_dir types
  <-> y ∈ types /\ FS.exists_ fs (class_dir_of data_dir y) = false.
Proof.
  unfold absent. rewrite list_elem_of_In, filter_In, <- list_elem_of_In.
  rewrite negb_true_iff. reflexivity.
Qed.

Lemma scan_classes_found types found out :
  no_stray_file fs data_dir types ->
  exists out',
    scan_classes fs data_dir types found out
    = Ok (found ∪ (list_to_set types
                   ∖ list_to_set (absent fs data_dir types)), out').
Proof.
  revert found out. induction types as [|c types IH]; intros found out Hok.
  - exists out. simpl. f_equal. f_equal. set_solver.
  - assert (Hrest : no_stray_file fs data_dir types)
      by (intros c' x Hin; apply Hok; set_solver).
    cbn [scan_classes]. unfold FS.exists_, FS.listdir.
    destruct (fs !! os_path_join data_dir c) as [[x|entries]|] eqn:E.
    + exfalso. apply (Hok c x); [set_solver | exact E].
    + cbn [mbind result_bind].
      destruct (IH ({[c]} ∪ found)
                   (out ++ [Found c (count_images entries)])%list Hrest)
        as [out' ->].
      exists out'. f_equal. f_equal.
      assert (Hc : FS.exists_ fs (class_dir_of data_dir c) = true)
        by (unfold FS.exists_, class_dir_of; rewrite E; reflexivity).
      apply set_eq. intros y.
      rewrite !elem_of_union, !elem_of_difference, !elem_of_list_to_set,
        !elem_of_absent, elem_of_singleton, elem_of_cons.
      destruct (decide (y = c)) as [->|Hne]; [|tauto].
      rewrite Hc. intuition discriminate.
    + destruct (IH found (out ++ [NotFound c])%list Hrest) as [out' ->].
      exists out'. f_equal. f_equal.
      assert (Hc : FS.exists_ fs (class_dir_of data_dir c) = false)
        by (unfold FS.exists_, class_dir_of; rewrite E; reflexivity).
      apply set_eq. intros y.
      rewrite !elem_of_union, !elem_of_difference, !elem_of_list_to_set,
        !elem_of_absent, elem_of_cons.
      destruct (decide (y = c)) as [->|Hne]; [|tauto].
      rewrite Hc. tauto.
Qed.

(** On a root where every class path is a directory or nothing, the
    validator answers in the three ways of its contract: no root, some
    classes absent (all of them named, and only them), or success. *)
Lemma validate_dataset_layout :
  no_stray_file fs data_dir SOIL_TYPES ->
  validate_dataset fs data_dir
  = if negb (FS.exists_ fs data_dir) then Raise (FileNotFoundError data_dir)
    else match absent fs data_dir SOIL_TYPES with
         | [] => Ok true
         | _ => Raise (ValueError (list_to_set (absent fs data_dir SOIL_TYPES)))
         end.
Proof.
  intros Hok. unfold validate_dataset, validate_dataset_report.
  destruct (negb (FS.exists_ fs data_dir)); [reflexivity|].
  destruct (scan_classes_found SOIL_TYPES ∅ [] Hok) as [out' ->].
  cbn [mbind result_bind fst snd].
  assert (Hmiss : (list_to_set SOIL_TYPES : gset string)
                  ∖ (∅ ∪ (list_to_set SOIL_TYPES
                           ∖ list_to_set (absent fs data_dir SOIL_TYPES)))
                  = list_to_set (absent fs data_dir SOIL_TYPES)).
  { apply set_eq. intros y.
    rewrite !elem_of_difference, elem_of_union, elem_of_difference,
      !elem_of_list_to_set, elem_of_absent.
    destruct (decide (y ∈ absent fs data_dir SOIL_TYPES)) as [Hy|Hy].
    - rewrite elem_of_absent in Hy. set_solver.
    - rewrite elem_of_absent in Hy. set_solver. }
  rewrite Hmiss.
  destruct (absent fs data_dir SOIL_TYPES) as [|a l] eqn:Ea.
  - rewrite decide_True by reflexivity. reflexivity.
  - rewrite decide_False; [reflexivity|].
    intros Hempty. assert (a ∈ (∅ : gset string)); [|set_solver].
    rewrite <- Hempty. set_solver.
Qed.

(** C10.  Whenever the root directory and the six class directories exist,
    [validate_dataset] returns [True], and the counts it prints are the
    numbers of image files found, whatever they are: they play no part in
    the verdict. *)
Theorem validate_dataset_ignores_image_counts :
  FS.isdir fs data_dir = true ->
  (forall c, c ∈ SOIL_TYPES -> FS.isdir fs (class_dir_of data_dir c) = true) ->
  validate_dataset fs data_dir = Ok true
  /\ validate_dataset_report fs data_dir
     = Ok (true, map (fun c => Found c (images_in fs (class_dir_of data_dir c)))
                     SOIL_TYPES).
Proof.
  intros Hroot Hdirs.
  assert (Hrep : validate_dataset_report fs data_dir
     = Ok (true, map (fun c => Found c (images_in fs (class_dir_of data_dir c)))
                     SOIL_TYPES)).
  { unfold validate_dataset_report.
    assert (Hex : FS.exists_ fs data_dir = true).
    { unfold FS.isdir in Hroot. unfold FS.exists_.
      destruct (fs !! data_dir); [reflexivity | discriminate]. }
    rewrite Hex. cbn [negb].
    rewrite (scan_classes_dirs SOIL_TYPES ∅ [] Hdirs).
    cbn [mbind result_bind fst snd app].
    rewrite decide_True; [reflexivity | set_solver]. }
  split; [|exact Hrep].
  unfold validate_dataset. rewrite Hrep. reflexivity.
Qed.

End Validator.

Lemma validate_dataset_ignores_image_counts_witness :
  validate_dataset Examples.empty_dataset "dataset" = Ok true
  /\ validate_dataset_report Examples.empty_dataset "dataset"
     = Ok (true, map (fun c => Found c 0) SOIL_TYPES).
Proof.
  apply (validate_dataset_ignores_image_counts Examples.empty_dataset "dataset").
  - vm_compute. reflexivity.
  - intros c Hc.
    repeat (apply elem_of_cons in Hc as [->|Hc]; [vm_compute; reflexivity|]).
    inversion Hc.
Defined.

(** C3.  A root whose [clay] entry is a regular file has no [clay]
    sub-directory, yet [validate_dataset] does not report it as missing:
    [os.path.exists] accepts the file and [os.listdir] then raises
    [NotADirectoryError]. *)
Theorem validate_dataset_stray_file :
  FS.isdir Examples.stray_clay "dataset" = true
  /\ FS.isdir Examples.stray_clay (class_dir_of "dataset" "clay") = false
  /\ (forall c, c ∈ ["loam"; "sandy"; "silt"; "peat"; "chalk"] ->
        FS.isdir Examples.stray_clay (class_dir_of "dataset" c) = true)
  /\ validate_dataset Examples.stray_clay "dataset"
     = Raise (NotADirectoryError "dataset/clay").
Proof.
  split; [vm_compute; reflexivity|].
  split; [vm_compute; reflexivity|].
  split; [|vm_compute; reflexivity].
  intros c Hc.
  repeat (apply elem_of_cons in Hc as [->|Hc]; [vm_compute; reflexivity|]).
  inversion Hc.
Qed.

(** ** The data pipeline *)

Lemma fst_combine_seq {A} (l : list A) (start : nat) :
  map fst (combine l (seq start (length l))) = l.
Proof.
  revert start. induction l as [|a l IH]; intros start; [reflexivity|].
  cbn. f_equal. apply IH.
Qed.

Lemma directory_iterator_label_order dg fs directory args gen :
  Keras.directory_iterator dg fs directory args = Ok gen ->
  label_order gen = sorted_subdirectories fs directory.
Proof.
  unfold Keras.directory_iterator, sorted_subdirectories.
  destruct (FS.listdir fs directory) as [entries|e]; [|discriminate].
  cbn [mbind result_bind]. intros [= <-].
  unfold label_order. cbn [Keras.class_indices]. apply fst_combine_seq.
Qed.

(** *** The resolved order is a sorted list, which [SOIL_TYPES] is not *)

Lemma compare_not_Gt_trans (a : string) : forall b c,
  String.compare a b <> Gt -> String.compare b c <> Gt ->
  String.compare a c <> Gt.
Proof.
  induction a as [|x a IH]; intros [|y b] [|z c]; cbn; try congruence.
  unfold Ascii.compare.
  destruct (N.compare_spec (N_of_ascii x) (N_of_ascii y)) as [Exy|Lxy|Gxy];
    destruct (N.compare_spec (N_of_ascii y) (N_of_ascii z)) as [Eyz|Lyz|Gyz];
    destruct (N.compare_spec (N_of_ascii x) (N_of_ascii z)) as [Exz|Lxz|Gxz];
    try congruence; try lia.
  apply IH.
Qed.

Lemma leb_true_trans (a b c : string) :
  leb_true a b -> leb_true b c -> leb_true a c.
Proof.
  unfold leb_true, String.leb. intros Hab Hbc.
  pose proof (compare_not_Gt_trans a b c) as H.
  destruct (String.compare a b), (String.compare b c), (String.compare a c);
    try reflexivity; try discriminate; exfalso; apply H; congruence.
Qed.

Lemma Forall_insert_sorted (P : string -> Prop) (x : string) (l : list string) :
  P x -> Forall P l -> Forall P (insert_sorted x l).
Proof.
  intros Hx Hl. induction Hl as [|y l Hy Hl IH]; cbn.
  - now constructor.
  - destruct (String.leb x y); repeat constructor; assumption.
Qed.

Lemma insert_sorted_sorted (x : string) (l : list string) :
  StronglySorted leb_true l -> StronglySorted leb_true (insert_sorted x l).
Proof.
  induction 1 as [|y l Hl IH Hy]; cbn.
  - repeat constructor.
  - destruct (String.leb x y) eqn:E.
    + constructor; [now constructor|]. constructor; [exact E|].
      eapply Forall_impl; [exact Hy|]. intros z Hz.
      now apply (leb_true_trans x y z).
    + constructor; [exact IH|]. apply Forall_insert_sorted; [|exact Hy].
      destruct (String.leb_total x y) as [H|H]; [congruence | exact H].
Qed.

Lemma sorted_is_sorted (l : list string) : StronglySorted leb_true (sorted l).
Proof.
  induction l as [|x l IH]; cbn; [constructor|]. now apply insert_sorted_sorted.
Qed.

Lemma filter_sorted (P : string -> bool) (l : list string) :
  StronglySorted leb_true l -> StronglySorted leb_true (List.filter P l).
Proof.
  induction 1 as [|y l Hl IH Hy]; cbn; [constructor|].
  destruct (P y); [|exact IH]. constructor; [exact IH|].
  apply List.Forall_forall. intros z Hz. apply filter_In in Hz as [Hz _].
  revert z Hz. now apply List.Forall_forall.
Qed.

Lemma SOIL_TYPES_not_sorted : ~ StronglySorted leb_true SOIL_TYPES.
Proof.
  intros H. unfold SOIL_TYPES in H.
  do 3 (apply StronglySorted_inv in H as [H _]).
  apply StronglySorted_inv in H as [_ H].
  apply Forall_inv in H. discriminate H.
Qed.

(** Whatever the dataset root holds, the order Keras resolves from it is not
    the order of [SOIL_TYPES]. *)
Lemma sorted_subdirectories_never_SOIL_TYPES (fs : filesystem) (directory : string) :
  sorted_subdirectories fs directory <> SOIL_TYPES.
Proof.
  unfold sorted_subdirectories.
  destruct (FS.listdir fs directory) as [entries|e]; [|discriminate].
  intros H. apply SOIL_TYPES_not_sorted. rewrite <- H.
  apply filter_sorted, sorted_is_sorted.
Qed.

Lemma training_order_never_SOIL_TYPES (keras : Keras.API) (g : globals)
    (fs : filesystem) (data_dir : string) (validation_split : Q)
    (train_generator validation_generator : Keras.generator) :
  Keras.flow_from_directory keras = Keras.directory_iterator ->
  create_data_generators keras g fs data_dir validation_split
    = Ok (train_generator, validation_generator) ->
  label_order train_generator <> SOIL_TYPES
  /\ label_order validation_generator <> SOIL_TYPES.
Proof.
  intros Hlib. unfold create_data_generators. rewrite Hlib.
  destruct (Keras.ImageDataGenerator keras (train_datagen_kwargs _))
    as [tdg|e]; cbn [mbind result_bind]; [|discriminate].
  destruct (Keras.ImageDataGenerator keras (val_datagen_kwargs _))
    as [vdg|e]; cbn [mbind result_bind]; [|discriminate].
  destruct (Keras.directory_iterator tdg _ _ _) as [tr|e] eqn:Et;
    cbn [mbind result_bind]; [|discriminate].
  destruct (Keras.directory_iterator vdg _ _ _) as [va|e] eqn:Ev;
    cbn [mbind result_bind]; [|discriminate].
  intros [= <- <-].
  rewrite (directory_iterator_label_order _ _ _ _ _ Et),
    (directory_iterator_label_order _ _ _ _ _ Ev).
  split; apply sorted_subdirectories_never_SOIL_TYPES.
Qed.

(** With the released library the body of [main] ends in [sys.exit(1)] on
    every input: the run stops at the latest where the training generator
    is built. *)
Lemma main_body_exits_with_released_keras (rt : runtime) (args : arguments)
    (fs : filesystem) :
  rt_keras rt = Keras.keras -> (main_body rt args fs).2 = Exit 1.
Proof.
  intros Hk. unfold main_body, train_and_save, mbind, io_bind, reading.
  destruct (trainer_init (arg_output_dir args) fs) as [fs1 [[]|e]];
    [|reflexivity].
  destruct (validate_dataset fs1 (arg_data_dir args)) as [ok|e];
    [|reflexivity].
  rewrite Hk. reflexivity.
Qed.

(** C6.  With the released [ImageDataGenerator], building the training
    generator fails on the [contrast_range] keyword, for every dataset and
    every split: no training batch is ever produced. *)
Theorem create_data_generators_contrast_range_rejected
    (g : globals) (fs : filesystem) (data_dir : string) (validation_split : Q) :
  create_data_generators Keras.keras g fs data_dir validation_split
  = Raise (TypeError "contrast_range").
Proof. reflexivity. Qed.

(** ** Training steps *)

Lemma max_floor_rounded_down (n b : Z) :
  (0 <= n)%Z -> (0 < b)%Z -> rounded_down_min_1 n b (Z.max 1 (n / b)).
Proof.
  intros Hn Hb. unfold rounded_down_min_1. split.
  - intros Hle.
    assert (1 <= n / b)%Z by (apply Z.div_le_lower_bound; lia).
    rewrite Z.max_r by lia.
    pose proof (Z.mul_div_le n b Hb).
    pose proof (Z.mul_succ_div_gt n b Hb). lia.
  - intros Hlt. rewrite Z.div_small by lia. reflexivity.
Qed.

(** A batch size of 0 stops [train_model] at the division. *)
Lemma train_model_call_zero_batch (output_dir : string) (num_epochs : Z)
    (train_generator validation_generator : Keras.generator) :
  train_model_call {| BATCH_SIZE := 0; EPOCHS := num_epochs |} output_dir
    train_generator validation_generator
  = Raise ZeroDivisionError.
Proof. reflexivity. Qed.

(** C9.  For a non-zero batch size, [train_model] calls [fit] with
    [max(1, samples // BATCH_SIZE)] steps for the training stream and the
    same formula for the validation stream; for a positive batch size these
    are the sample counts divided by the batch size, rounded down, and never
    less than 1. *)
Theorem train_model_steps_per_epoch
    (rt : runtime) (g : globals) (output_dir : string) (model : keras_model)
    (train_generator validation_generator : Keras.generator) :
  BATCH_SIZE g <> 0%Z ->
  exists call,
    train_model_call g output_dir train_generator validation_generator = Ok call
    /\ (forall fs,
          train_model rt g output_dir model train_generator validation_generator fs
          = rt_fit rt model train_generator validation_generator call fs)
    /\ steps_per_epoch call
       = Z.max 1 (Keras.samples train_generator / BATCH_SIZE g)
    /\ validation_steps call
       = Z.max 1 (Keras.samples validation_generator / BATCH_SIZE g)
    /\ (1 <= steps_per_epoch call)%Z
    /\ (1 <= validation_steps call)%Z
    /\ ((0 < BATCH_SIZE g)%Z ->
        rounded_down_min_1 (Keras.samples train_generator) (BATCH_SIZE g)
                           (steps_per_epoch call)
        /\ rounded_down_min_1 (Keras.samples validation_generator) (BATCH_SIZE g)
                              (validation_steps call)).
Proof.
  intros Hb. unfold train_model, train_model_call, floordiv.
  destruct (BATCH_SIZE g =? 0)%Z eqn:E; [apply Z.eqb_eq in E; contradiction|].
  cbn [mbind result_bind]. eexists. split; [reflexivity|].
  cbn [steps_per_epoch validation_steps].
  split; [reflexivity|].
  split; [reflexivity|]. split; [reflexivity|].
  split; [lia|]. split; [lia|].
  intros Hpos.
  split; apply max_floor_rounded_down; unfold Keras.samples; lia.
Qed.

Lemma train_model_steps_per_epoch_witness :
  exists call,
    train_model_call default_globals "out"
      {| Keras.gen_config := []; Keras.gen_args := flow_args_for default_globals "training" true;
         Keras.class_indices := []; Keras.classes := replicate 100 0%nat |}
      {| Keras.gen_config := []; Keras.gen_args := flow_args_for default_globals "validation" false;
         Keras.class_indices := []; Keras.classes := replicate 20 0%nat |}
    = Ok call
    /\ steps_per_epoch call = 3%Z /\ validation_steps call = 1%Z.
Proof.
  destruct (train_model_steps_per_epoch
              {| rt_keras := Keras.keras;
                 rt_sequential := fun _ _ => Raise (Exception "unused");
                 rt_fit := fun m _ _ _ => mret m;
                 rt_sklearn := Sklearn.reference;
                 rt_json := fun _ => [];
                 rt_now := "";
                 rt_coreml := CoreML.reference |}
              default_globals "out" Examples.saved_model
              {| Keras.gen_config := []; Keras.gen_args := flow_args_for default_globals "training" true;
                 Keras.class_indices := []; Keras.classes := replicate 100 0%nat |}
              {| Keras.gen_config := []; Keras.gen_args := flow_args_for default_globals "validation" false;
                 Keras.class_indices := []; Keras.classes := replicate 20 0%nat |})
    as (call & Hcall & _ & Hs & Hv & _).
  - cbn. lia.
  - exists call. split; [exact Hcall|]. rewrite Hs, Hv. split; reflexivity.
Defined.

(** ** The converter's request *)

(** C4 (as amended).  For an input shape whose height entry is known when it
    has four dimensions, the converter asks for an image input (scale 1/255,
    zero bias) exactly when the shape has four dimensions and its height
    [input_shape[1]] is at least 224, and for the generic input otherwise; the
    classifier configuration carries the supplied labels in both cases. *)
Theorem conversion_request_by_height
    (input_shape : list (option Z)) (class_labels : list string) :
  (length input_shape = 4%nat ->
   exists height, input_shape !! 1%nat = Some (Some height)) ->
  exists req,
    ConvertToCoreml.conversion_request input_shape class_labels = Ok req
    /\ cr_class_labels req = class_labels
    /\ (tall_image_shape input_shape -> image_input req)
    /\ (~ tall_image_shape input_shape -> generic_input req).
Proof.
  intros Hknown.
  unfold ConvertToCoreml.conversion_request, ConvertToCoreml.is_image_input.
  destruct (length input_shape =? 4)%nat eqn:Elen.
  - apply Nat.eqb_eq in Elen. destruct (Hknown Elen) as [h Hh]. rewrite Hh.
    cbn [mbind result_bind].
    destruct (224 <=? h)%Z eqn:Eh.
    + eexists. split; [reflexivity|]. split; [reflexivity|]. split.
      * intros _. eexists. reflexivity.
      * intros Hnot. exfalso. apply Hnot. split; [exact Elen|].
        exists h. split; [exact Hh | lia].
    + eexists. split; [reflexivity|]. split; [reflexivity|]. split.
      * intros [_ (h' & Hh' & Hge)]. rewrite Hh in Hh'. injection Hh' as <-. lia.
      * intros _. reflexivity.
  - apply Nat.eqb_neq in Elen. cbn [mbind result_bind].
    eexists. split; [reflexivity|]. split; [reflexivity|]. split.
    + intros [Hlen _]. contradiction.
    + intros _. reflexivity.
Qed.

Lemma conversion_request_by_height_witness :
  exists req,
    ConvertToCoreml.conversion_request
      [None; Some 224; Some 224; Some 3]%Z ["clay"; "loam"] = Ok req
    /\ cr_class_labels req = ["clay"; "loam"]
    /\ image_input req.
Proof.
  destruct (conversion_request_by_height
              [None; Some 224; Some 224; Some 3]%Z ["clay"; "loam"])
    as (req & Hreq & Hlabels & Himage & _).
  - intros _. exists 224%Z. reflexivity.
  - exists req. split; [exact Hreq|]. split; [exact Hlabels|].
    apply Himage. split; [reflexivity|]. exists 224%Z. split; [reflexivity | lia].
Defined.

(** C4, counterexample.  A 224 x 100 input has a minimum spatial dimension
    below 224 and still gets the image input: only the height is tested. *)
Lemma image_input_for_narrow_width :
  ~ min_spatial_dimension_224 [None; Some 224; Some 100; Some 3]%Z
  /\ exists req,
       ConvertToCoreml.conversion_request
         [None; Some 224; Some 100; Some 3]%Z ["clay"; "loam"] = Ok req
       /\ image_input req
       /\ ~ generic_input req.
Proof.
  split.
  - intros [_ (h & w & Hh & Hw & Hmin)].
    injection Hh as <-. injection Hw as <-. lia.
  - eexists. split; [reflexivity|]. split.
    + eexists. reflexivity.
    + unfold generic_input. cbn. discriminate.
Qed.

(** ** The converter *)

(** The self-test swallows every failure and touches no file. *)
Lemma test_coreml_model_harmless ct model_path class_labels fs :
  ConvertToCoreml.test_coreml_model ct model_path class_labels fs = (fs, Ok tt).
Proof.
  unfold ConvertToCoreml.test_coreml_model, try_except_io, mbind, io_bind,
    lift, reading, mret, io_ret.
  destruct (CoreML.import_coremltools ct) as [[]|e]; [|reflexivity].
  destruct (CoreML.MLModel ct fs model_path) as [b|e]; [|reflexivity].
  destruct (CoreML.describe ct b) as [[]|e]; reflexivity.
Qed.

Lemma stamp_class_labels now class_labels input_shape b :
  ml_class_labels (ConvertToCoreml.stamp now class_labels input_shape b)
  = ml_class_labels b.
Proof. reflexivity. Qed.

Lemma stamp_metadata now class_labels input_shape b :
  ml_metadata (ConvertToCoreml.stamp now class_labels input_shape b)
  = ConvertToCoreml.bundle_metadata now class_labels input_shape.
Proof. reflexivity. Qed.

(** C8.  Every successful conversion has handed the supplied label list,
    unchanged and in its order, to the converter: the one request it made,
    for an image input and for a general one alike, carries the list as the
    class labels of its classifier configuration; the model it saved is the
    converter's answer to that request, with the converter's label list left
    as it was and the list entered as [soil_types] in the metadata.  When no
    list is supplied, the list is clay, loam, sandy, silt, peat, chalk. *)
Theorem bundle_labels_are_the_supplied_list
    (ct : CoreML.API) (now model_path : string) (output_path : option string)
    (class_labels : option (list string)) (fs fs' : filesystem) (out : string) :
  let labels :=
    match class_labels with
    | Some l => l
    | None => ["clay"; "loam"; "sandy"; "silt"; "peat"; "chalk"]
    end in
  ConvertToCoreml.convert_to_coreml ct now model_path output_path
    class_labels fs = (fs', Ok (Some out)) ->
  exists model request converted,
    let bundle :=
      ConvertToCoreml.stamp now labels (input_shape model) converted in
    CoreML.load_model ct fs model_path = Ok model
    /\ ConvertToCoreml.conversion_request (input_shape model) labels
       = Ok request
    /\ cr_class_labels request = labels
    /\ CoreML.convert ct model request = Ok converted
    /\ CoreML.save_io ct bundle out fs = (fs', Ok tt)
    /\ ml_class_labels bundle = ml_class_labels converted
    /\ In ("soil_types", VStrs labels) (ml_metadata bundle).
Proof.
  intros labels Hrun.
  unfold ConvertToCoreml.convert_to_coreml, try_except_io in Hrun.
  unfold mbind, io_bind, lift, reading, mret, io_ret in Hrun.
  fold labels in Hrun.
  destruct (CoreML.load_model ct fs model_path) as [m|e] eqn:Eload;
    [|discriminate].
  destruct (ConvertToCoreml.conversion_request (input_shape m) labels)
    as [req|e] eqn:Ereq; [|discriminate].
  destruct (CoreML.convert ct m req) as [b|e] eqn:Econv; [|discriminate].
  set (path := match output_path with
               | Some p => p
               | None => replace model_path ".h5" ".mlmodel"
               end) in *.
  destruct (CoreML.save_io ct
              (ConvertToCoreml.stamp now labels (input_shape m) b) path fs)
    as [fs1 [[]|e]] eqn:Esave; [|discriminate].
  destruct (CoreML.getsize ct fs1 path) as [z|e]; [|discriminate].
  rewrite test_coreml_model_harmless in Hrun.
  injection Hrun as Hfs Hout. subst fs'. rewrite <- Hout.
  exists m, req, b. cbv zeta.
  split; [reflexivity|]. split; [exact Ereq|]. split.
  { unfold ConvertToCoreml.conversion_request in Ereq.
    destruct (ConvertToCoreml.is_image_input (input_shape m)) as [[]|];
      cbn in Ereq; [| |discriminate]; injection Ereq as <-; reflexivity. }
  split; [exact Econv|]. split; [exact Esave|]. split.
  - apply stamp_class_labels.
  - rewrite stamp_metadata. cbn. tauto.
Qed.

Lemma bundle_labels_are_the_supplied_list_witness :
  exists fs' request,
    ConvertToCoreml.convert_to_coreml CoreML.reference "2024-05-01T10:00:00"
      "model.h5" (Some "SoilClassifier.mlpackage")
      (Some ["silt"; "clay"; "peat"]) MoreExamples.small_store
    = (fs', Ok (Some "SoilClassifier.mlpackage"))
    /\ ConvertToCoreml.conversion_request
         (input_shape MoreExamples.small_model) ["silt"; "clay"; "peat"]
       = Ok request
    /\ cr_class_labels request = ["silt"; "clay"; "peat"].
Proof.
  destruct (ConvertToCoreml.convert_to_coreml CoreML.reference
              "2024-05-01T10:00:00" "model.h5"
              (Some "SoilClassifier.mlpackage")
              (Some ["silt"; "clay"; "peat"]) MoreExamples.small_store)
    as [fs' r] eqn:Erun.
  assert (Hr : r = Ok (Some "SoilClassifier.mlpackage")).
  { apply (f_equal snd) in Erun. vm_compute in Erun. symmetry. exact Erun. }
  subst r.
  destruct (bundle_labels_are_the_supplied_list CoreML.reference
              "2024-05-01T10:00:00" "model.h5"
              (Some "SoilClassifier.mlpackage")
              (Some ["silt"; "clay"; "peat"]) MoreExamples.small_store fs'
              "SoilClassifier.mlpackage" Erun)
    as (model & request & converted & Hload & Hreq & Hlabels & _).
  exists fs', request. split; [reflexivity|].
  assert (Hm : model = MoreExamples.small_model).
  { vm_compute in Hload. now injection Hload as <-. }
  subst model. split; [exact Hreq | exact Hlabels].
Defined.

(** A model with a dynamic height: the comparison of [None] with 224
    raises, and the converter returns [None]. *)
Lemma dynamic_height_is_a_conversion_failure :
  ConvertToCoreml.conversion_request [None; None; None; Some 3]%Z ["clay"; "loam"]
  = Raise (TypeError "'>=' not supported between 'NoneType' and 'int'")
  /\ (ConvertToCoreml.convert_to_coreml CoreML.reference "2024-05-01T10:00:00"
        "model.h5" None None
        {[ "model.h5" :=
             File (SavedModel {| input_shape := [None; None; None; Some 3]%Z;
                                 supported_ops := true;
                                 outputs := fun _ => [] |}) ]}).2
     = Ok None.
Proof. split; vm_compute; reflexivity. Qed.

(** ** The persister *)

Lemma append_empty_r (s : string) : s ++ "" = s.
Proof.
  induction s as [|c s IH]; [reflexivity|].
  change (String c (s ++ "") = String c s). now rewrite IH.
Qed.

Lemma append_assoc (a b c : string) : (a ++ b) ++ c = a ++ (b ++ c).
Proof.
  induction a as [|x a IH]; [reflexivity|].
  change (String x ((a ++ b) ++ c) = String x (a ++ (b ++ c))). now rewrite IH.
Qed.

Lemma append_inj_l (a b c : string) : a ++ b = a ++ c -> b = c.
Proof.
  induction a as [|x a IH]; [trivial|].
  change (String x (a ++ b) = String x (a ++ c) -> b = c).
  intros [= H]. exact (IH H).
Qed.

(** Joining a directory with two different relative names gives two
    different paths. *)
Lemma os_path_join_inj (a b c : string) :
  startswith b "/" = false -> startswith c "/" = false ->
  os_path_join a b = os_path_join a c -> b = c.
Proof.
  unfold os_path_join. intros -> ->.
  destruct (String.eqb a "" || endswith a "/"); intros H.
  - exact (append_inj_l _ _ _ H).
  - apply append_inj_l in H. exact (append_inj_l _ _ _ H).
Qed.

Lemma model_path_not_metadata_path output_dir :
  model_path output_dir <> metadata_path output_dir.
Proof.
  intros H. apply os_path_join_inj in H; [discriminate | reflexivity..].
Qed.

Lemma coreml_path_not_model_path output_dir :
  coreml_path output_dir <> model_path output_dir.
Proof.
  intros H. apply os_path_join_inj in H; [discriminate | reflexivity..].
Qed.

Lemma coreml_path_not_metadata_path output_dir :
  coreml_path output_dir <> metadata_path output_dir.
Proof.
  intros H. apply os_path_join_inj in H; [discriminate | reflexivity..].
Qed.

(** *** Steps, buffers and what reaches the disk *)

Lemma prefix_append (u x : string) : String.prefix u (u ++ x) = true.
Proof.
  induction u as [|c u IH]; [now destruct x|].
  change (String c u ++ x) with (String c (u ++ x)). cbn.
  destruct (ascii_dec c c); [exact IH | congruence].
Qed.

Lemma run_steps_app (a b : list FS.step) : forall st,
  FS.run_steps st (a ++ b)%list
  = match FS.run_steps st a with
    | (st', Ok _) => FS.run_steps st' b
    | (st', Raise e) => (st', Raise e)
    end.
Proof.
  induction a as [|s a IH]; intros st; [reflexivity|].
  cbn [app FS.run_steps].
  destruct (FS.run_step st s) as [st'|e]; [apply IH | reflexivity].
Qed.

Lemma states_from_app (a b : list FS.step) : forall st,
  FS.states_from st (a ++ b)%list
  = (FS.states_from st a
     ++ match FS.run_steps st a with
        | (st', Ok _) => FS.states_from st' b
        | (_, Raise _) => []
        end)%list.
Proof.
  induction a as [|s a IH]; intros st; [reflexivity|].
  cbn [app FS.run_steps FS.states_from].
  destruct (FS.run_step st s) as [st'|e]; [|reflexivity].
  cbn [app]. now rewrite IH.
Qed.

Section WriteChunks.

Variable p : string.

(** Writing chunks to the open file at [p]: what is on the disk and what
    waits in the buffer make up, together, what was there and all chunks;
    every state on the way shows a front part of that at [p] and leaves
    every other path alone. *)
Lemma write_chunks chunks : forall (fs : filesystem) (buf t : string),
  fs !! p = Some (File (Text t)) ->
  exists fs' buf' t',
    FS.run_steps (fs, buf) (map (FS.Write p) chunks) = ((fs', buf'), Ok tt)
    /\ fs' !! p = Some (File (Text t'))
    /\ t' ++ buf' = t ++ buf ++ join_chunks chunks
    /\ (forall q, q <> p -> fs' !! q = fs !! q)
    /\ Forall (fun st : filesystem =>
                 (exists u, text_at st p = Some u
                    /\ String.prefix u (t ++ buf ++ join_chunks chunks) = true)
                 /\ forall q, q <> p -> st !! q = fs !! q)
              (FS.states_from (fs, buf) (map (FS.Write p) chunks)).
Proof.
  induction chunks as [|c cs IH]; intros fs buf t Hp.
  - exists fs, buf, t. cbn [map FS.run_steps FS.states_from join_chunks foldr].
    rewrite append_empty_r. repeat split; [exact Hp | constructor].
  - change (join_chunks (c :: cs)) with (c ++ join_chunks cs).
    cbn [map FS.run_steps FS.states_from FS.run_step fst snd].
    destruct (FS.buffer_size <? N.of_nat (String.length (buf ++ c)))%N.
    + unfold FS.flush. rewrite Hp.
      set (fs1 := FS.write fs p (Text (t ++ buf ++ c))).
      assert (Hp1 : fs1 !! p = Some (File (Text (t ++ buf ++ c))))
        by apply lookup_insert_eq.
      assert (Hfr1 : forall q, q <> p -> fs1 !! q = fs !! q).
      { intros q Hq. unfold fs1, FS.write.
        now rewrite lookup_insert_ne by (apply not_eq_sym, Hq). }
      assert (Htot : (t ++ buf ++ c) ++ "" ++ join_chunks cs
                     = t ++ buf ++ c ++ join_chunks cs).
      { change ("" ++ join_chunks cs) with (join_chunks cs).
        now rewrite !append_assoc. }
      destruct (IH fs1 "" _ Hp1) as (fs' & buf' & t' & Hrun & Hp' & Hsum & Hfr & Hst).
      rewrite Htot in Hsum, Hst.
      exists fs', buf', t'. split; [exact Hrun|]. split; [exact Hp'|].
      split; [exact Hsum|]. split.
      { intros q Hq. now rewrite Hfr, Hfr1. }
      cbn [fst]. constructor.
      * split; [|exact Hfr1]. exists (t ++ buf ++ c). split.
        { unfold text_at. now rewrite Hp1. }
        rewrite <- Htot. apply prefix_append.
      * eapply Forall_impl; [exact Hst|]. intros st [Hu Hq]. split; [exact Hu|].
        intros q Hne. now rewrite Hq, Hfr1.
    + destruct (IH fs (buf ++ c) t Hp)
        as (fs' & buf' & t' & Hrun & Hp' & Hsum & Hfr & Hst).
      assert (Htot : t ++ (buf ++ c) ++ join_chunks cs
                     = t ++ buf ++ c ++ join_chunks cs)
        by now rewrite !append_assoc.
      rewrite Htot in Hsum, Hst.
      exists fs', buf', t'. split; [exact Hrun|]. split; [exact Hp'|].
      split; [exact Hsum|]. split; [exact Hfr|].
      cbn [fst]. constructor; [|exact Hst].
      split; [|reflexivity]. exists t. split.
      { unfold text_at. now rewrite Hp. }
      apply prefix_append.
Qed.

End WriteChunks.

(** *** save_model_and_metadata *)

Lemma run_step_Save (fs : filesystem) (buf dir p : string) (c : content) :
  FS.run_step (fs, buf) (FS.Save dir p c)
  = match FS.creatable fs dir p with
    | Ok _ => Ok (FS.write fs p c, buf)
    | Raise e => Raise e
    end.
Proof. reflexivity. Qed.

Lemma run_step_Open (fs : filesystem) (buf dir p : string) :
  FS.run_step (fs, buf) (FS.Open dir p)
  = match FS.creatable fs dir p with
    | Ok _ => Ok (FS.write fs p (Text ""), "")
    | Raise e => Raise e
    end.
Proof. reflexivity. Qed.

(** The three ways the persister can go: the model cannot be stored, and
    nothing is written; the model is stored but the metadata file cannot be
    opened; or both files are written, the metadata file being emptied
    first and holding front parts of the record until it is closed. *)
Lemma save_steps_cases (rt : runtime) (g : globals)
    (data_dir output_dir : string) (model : keras_model)
    (evaluation_results : evaluation) (fs : filesystem) :
  let steps := save_steps rt g data_dir output_dir model evaluation_results in
  let mp := model_path output_dir in
  let jp := metadata_path output_dir in
  let record :=
    join_chunks (rt_json rt (metadata_dict rt g data_dir evaluation_results)) in
  let s0 := FS.write fs mp (SavedModel model) in
  let s1 := FS.write s0 jp (Text "") in
  (exists e,
     FS.creatable fs output_dir mp = Raise e
     /\ FS.run_steps (fs, "") steps = ((fs, ""), Raise e)
     /\ FS.states fs steps = [])
  \/ (exists e,
        FS.creatable fs output_dir mp = Ok tt
        /\ FS.creatable s0 output_dir jp = Raise e
        /\ FS.run_steps (fs, "") steps = ((s0, ""), Raise e)
        /\ FS.states fs steps = [s0])
  \/ (FS.creatable fs output_dir mp = Ok tt
      /\ FS.creatable s0 output_dir jp = Ok tt
      /\ exists mid,
           FS.states fs steps
           = (s0 :: s1 :: mid ++ [<[jp := File (Text record)]> s0])%list
           /\ FS.run_steps (fs, "") steps
              = ((<[jp := File (Text record)]> s0, ""), Ok tt)
           /\ Forall (fun st : filesystem =>
                        (exists u, text_at st jp = Some u
                           /\ String.prefix u record = true)
                        /\ forall q, q <> jp -> st !! q = s0 !! q)
                     mid).
Proof.
  intros steps mp jp record s0 s1.
  unfold steps, save_steps, json_dump, FS.states.
  fold mp jp.
  set (chunks := rt_json rt (metadata_dict rt g data_dir evaluation_results)).
  cbn [app FS.run_steps FS.states_from]. rewrite run_step_Save.
  destruct (FS.creatable fs output_dir mp) as [[]|e] eqn:E0;
    [|left; exists e; repeat split; reflexivity].
  right. fold s0. cbn [app FS.run_steps FS.states_from fst].
  rewrite run_step_Open.
  destruct (FS.creatable s0 output_dir jp) as [[]|e] eqn:E1;
    [|left; exists e; repeat split; reflexivity].
  right. split; [reflexivity|]. split; [reflexivity|]. fold s1.
  assert (Hp1 : s1 !! jp = Some (File (Text ""))) by apply lookup_insert_eq.
  assert (Hfr1 : forall q, q <> jp -> s1 !! q = s0 !! q).
  { intros q Hq. unfold s1, FS.write.
    now rewrite lookup_insert_ne by (apply not_eq_sym, Hq). }
  destruct (write_chunks jp chunks s1 "" "" Hp1)
    as (fs' & buf' & t' & Hrun & Hp' & Hsum & Hfr & Hst).
  change ("" ++ "" ++ join_chunks chunks) with record in Hsum, Hst.
  cbn [fst]. rewrite run_steps_app, states_from_app, Hrun.
  cbn [FS.run_steps FS.states_from FS.run_step fst snd].
  unfold FS.flush. rewrite Hp', Hsum.
  assert (Hlast : FS.write fs' jp (Text record)
                  = <[jp := File (Text record)]> s0).
  { apply map_eq. intros q. unfold FS.write.
    destruct (decide (q = jp)) as [->|Hq].
    - now rewrite !lookup_insert_eq.
    - rewrite !lookup_insert_ne by (apply not_eq_sym, Hq).
      now rewrite Hfr, Hfr1. }
  rewrite Hlast.
  exists (FS.states_from (s1, "") (map (FS.Write jp) chunks)).
  split; [reflexivity|]. split; [reflexivity|].
  eapply Forall_impl; [exact Hst|]. intros st [Hu Hq]. split; [exact Hu|].
  intros q Hne. now rewrite Hq, Hfr1.
Qed.

(** C2 (as amended).  [save_model_and_metadata] writes the metadata in
    place.  Whenever it returns, the file at the final metadata path was
    opened for writing there, which left it empty, whatever it held before;
    from then on it held a front part of the encoded record, and the whole
    record at the end.  No path other than the model's and the metadata's
    was touched at any time: there is no temporary file and no rename. *)
Theorem metadata_is_written_in_place
    (rt : runtime) (g : globals) (data_dir output_dir : string)
    (model : keras_model) (evaluation_results : evaluation)
    (fs fs' : filesystem) :
  let record :=
    join_chunks (rt_json rt (metadata_dict rt g data_dir evaluation_results)) in
  let observed :=
    FS.states fs
      (save_steps rt g data_dir output_dir model evaluation_results) in
  save_model_and_metadata rt g data_dir output_dir model evaluation_results fs
  = (fs', Ok tt) ->
  (exists opened,
     observed !! 1%nat = Some opened
     /\ text_at opened (metadata_path output_dir) = Some "")
  /\ last observed = Some fs'
  /\ text_at fs' (metadata_path output_dir) = Some record
  /\ (forall i st,
        observed !! S i = Some st ->
        exists u, text_at st (metadata_path output_dir) = Some u
                  /\ String.prefix u record = true)
  /\ (forall st q,
        st ∈ observed ->
        q <> model_path output_dir -> q <> metadata_path output_dir ->
        st !! q = fs !! q).
Proof.
  intros record observed Hrun.
  unfold save_model_and_metadata in Hrun.
  pose proof (save_steps_cases rt g data_dir output_dir model
                evaluation_results fs) as Hcases.
  cbv zeta in Hcases. fold record observed in Hcases.
  set (mp := model_path output_dir) in *.
  set (jp := metadata_path output_dir) in *.
  set (s0 := FS.write fs mp (SavedModel model)) in *.
  set (s1 := FS.write s0 jp (Text "")) in *.
  destruct Hcases as [(e & _ & Hr & _)|[(e & _ & _ & Hr & _)|Hok]];
    [rewrite Hr in Hrun; discriminate..|].
  destruct Hok as (_ & _ & mid & Hobs & Hr & Hmid).
  rewrite Hr in Hrun. cbn [fst snd] in Hrun. injection Hrun as <-.
  assert (H0 : forall q, q <> mp -> s0 !! q = fs !! q).
  { intros q Hq. unfold s0, FS.write.
    now rewrite lookup_insert_ne by (apply not_eq_sym, Hq). }
  assert (Hfull : String.prefix record record = true).
  { rewrite <- (append_empty_r record) at 2. apply prefix_append. }
  rewrite Hobs. split; [|split; [|split; [|split]]].
  - exists s1. split; [reflexivity|]. unfold text_at, s1, FS.write.
    now rewrite lookup_insert_eq.
  - change (s0 :: s1 :: mid ++ [<[jp:=File (Text record)]> s0])%list
      with ((s0 :: s1 :: mid) ++ [<[jp:=File (Text record)]> s0])%list.
    apply last_snoc.
  - unfold text_at. now rewrite lookup_insert_eq.
  - intros [|i] st Hst.
    + injection Hst as <-. exists "". split.
      * unfold text_at, s1, FS.write. now rewrite lookup_insert_eq.
      * now destruct record.
    + cbn [lookup list_lookup] in Hst.
      apply list_elem_of_lookup_2, elem_of_app in Hst as [Hin|Hin].
      * rewrite List.Forall_forall in Hmid.
        apply list_elem_of_In in Hin. exact (proj1 (Hmid st Hin)).
      * apply list_elem_of_singleton in Hin as ->. exists record. split.
        { unfold text_at. now rewrite lookup_insert_eq. }
        exact Hfull.
  - intros st q Hin Hmp Hjp.
    apply elem_of_cons in Hin as [->|Hin]; [now apply H0|].
    apply elem_of_cons in Hin as [->|Hin].
    { unfold s1, FS.write.
      rewrite lookup_insert_ne by (apply not_eq_sym, Hjp). now apply H0. }
    apply elem_of_app in Hin as [Hin|Hin].
    + rewrite List.Forall_forall in Hmid. apply list_elem_of_In in Hin.
      rewrite (proj2 (Hmid st Hin) q Hjp). now apply H0.
    + apply list_elem_of_singleton in Hin as ->.
      rewrite lookup_insert_ne by (apply not_eq_sym, Hjp). now apply H0.
Qed.

Lemma metadata_is_written_in_place_witness :
  exists fs' opened,
    save_model_and_metadata (Examples.runtime_with CoreML.reference)
      Examples.small_globals "dataset" "out" Examples.saved_model
      Examples.an_evaluation Examples.earlier_run
    = (fs', Ok tt)
    /\ FS.states Examples.earlier_run
         (save_steps (Examples.runtime_with CoreML.reference)
            Examples.small_globals "dataset" "out" Examples.saved_model
            Examples.an_evaluation) !! 1%nat = Some opened
    /\ text_at opened (metadata_path "out") = Some ""
    /\ last (FS.states Examples.earlier_run
               (save_steps (Examples.runtime_with CoreML.reference)
                  Examples.small_globals "dataset" "out" Examples.saved_model
                  Examples.an_evaluation)) = Some fs'.
Proof.
  destruct (save_model_and_metadata (Examples.runtime_with CoreML.reference)
              Examples.small_globals "dataset" "out" Examples.saved_model
              Examples.an_evaluation Examples.earlier_run)
    as [fs' r] eqn:Erun.
  assert (Hr : r = Ok tt).
  { apply (f_equal snd) in Erun. vm_compute in Erun. symmetry. exact Erun. }
  subst r.
  destruct (metadata_is_written_in_place _ _ _ _ _ _ _ _ Erun)
    as ((opened & Hopened & Hempty) & Hlast & _).
  exists fs', opened. split; [reflexivity|].
  split; [exact Hopened|]. split; [exact Hempty | exact Hlast].
Defined.

(** C2, counterexample.  Over an output directory that holds the complete
    record of an earlier run, the write is not atomic: once the file is
    opened a reader finds it empty, which is neither the earlier record nor
    the new one. *)
Lemma metadata_write_is_not_atomic :
  ~ atomic_at (metadata_path "out") Examples.earlier_run
      (save_steps (Examples.runtime_with CoreML.reference)
         Examples.small_globals "dataset" "out" Examples.saved_model
         Examples.an_evaluation).
Proof.
  intros Hatomic.
  set (steps := save_steps _ _ _ _ _ _) in Hatomic.
  set (opened := FS.write
                   (FS.write Examples.earlier_run (model_path "out")
                      (SavedModel Examples.saved_model))
                   (metadata_path "out") (Text "")).
  assert (Hin : opened ∈ FS.states Examples.earlier_run steps).
  { apply list_elem_of_lookup. exists 1%nat. vm_compute. reflexivity. }
  destruct (Hatomic _ Hin) as [H|H]; vm_compute in H; discriminate.
Qed.
(** ** The evaluation *)

Section Counting.

Lemma sum_list_zeros {X} (l : list X) : sum_list (map (fun _ => 0%nat) l) = 0%nat.
Proof. induction l as [|x l IH]; [reflexivity|]. cbn. exact IH. Qed.

Lemma sum_list_map_add {X} (f h : X -> nat) (l : list X) :
  sum_list (map (fun x => (f x + h x)%nat) l)
  = (sum_list (map f l) + sum_list (map h l))%nat.
Proof. induction l as [|x l IH]; [reflexivity|]. cbn. rewrite IH. lia. Qed.

Lemma sum_list_map_ext {X} (f h : X -> nat) (l : list X) :
  (forall x, x ∈ l -> f x = h x) -> sum_list (map f l) = sum_list (map h l).
Proof.
  intros H. f_equal. apply map_ext_in. intros x Hx. apply H.
  now apply list_elem_of_In.
Qed.

Lemma length_filter_as_sum {X} (P : X -> bool) (l : list X) :
  length (List.filter P l)
  = sum_list (map (fun x => if P x then 1%nat else 0%nat) l).
Proof.
  induction l as [|x l IH]; [reflexivity|].
  cbn. destruct (P x); cbn; now rewrite IH.
Qed.

(** Counting the elements of [l] per key and adding up over the keys is
    counting, element by element, the keys that fit. *)
Lemma sum_filter_lengths {X} (key : X -> nat -> bool) (labels : list nat)
    (l : list X) :
  sum_list (map (fun k => length (List.filter (fun x => key x k) l)) labels)
  = sum_list (map (fun x =>
                     sum_list (map (fun k => if key x k then 1%nat else 0%nat)
                                   labels)) l).
Proof.
  induction l as [|x l IH].
  - cbn. apply sum_list_zeros.
  - rewrite (map_cons _ x l). cbn [sum_list_with fold_right foldr id].
    rewrite <- IH, <- sum_list_map_add.
    apply sum_list_map_ext. intros k _. cbn. destruct (key x k); reflexivity.
Qed.

Lemma indicator_sum_absent (a : nat) (labels : list nat) :
  a ∉ labels ->
  sum_list (map (fun k => if Nat.eqb a k then 1%nat else 0%nat) labels) = 0%nat.
Proof.
  induction labels as [|k labels IH]; intros Ha; [reflexivity|].
  cbn. destruct (Nat.eqb_spec a k) as [->|Hne]; [set_solver|].
  apply IH. set_solver.
Qed.

Lemma indicator_sum_present (a : nat) (labels : list nat) :
  NoDup labels -> a ∈ labels ->
  sum_list (map (fun k => if Nat.eqb a k then 1%nat else 0%nat) labels) = 1%nat.
Proof.
  induction labels as [|k labels IH]; intros Hnd Ha; [inversion Ha|].
  apply NoDup_cons in Hnd as [Hk Hnd].
  cbn. destruct (Nat.eqb_spec a k) as [->|Hne].
  - now rewrite indicator_sum_absent.
  - apply IH; [exact Hnd | set_solver].
Qed.

Lemma le_foldr_max (x : nat) (l : list nat) :
  x ∈ l -> (x <= foldr Nat.max 0%nat l)%nat.
Proof.
  induction l as [|y l IH]; intros Hx; [inversion Hx|].
  cbn. apply elem_of_cons in Hx as [->|Hx]; [lia|]. specialize (IH Hx). lia.
Qed.

Lemma elem_of_unique_labels (y_true y_pred : list nat) (x : nat) :
  x ∈ (y_true ++ y_pred)%list -> x ∈ Sklearn.unique_labels y_true y_pred.
Proof.
  intros Hx. unfold Sklearn.unique_labels.
  apply list_elem_of_In, filter_In. split.
  - apply in_seq. pose proof (le_foldr_max x _ Hx). lia.
  - apply existsb_exists. exists x. split; [now apply list_elem_of_In|].
    apply Nat.eqb_refl.
Qed.

Lemma NoDup_unique_labels (y_true y_pred : list nat) :
  NoDup (Sklearn.unique_labels y_true y_pred).
Proof.
  unfold Sklearn.unique_labels. apply NoDup_ListNoDup, List.NoDup_filter, seq_NoDup.
Qed.

Lemma diagonal_of_table (f : nat -> nat -> nat) (suf : list nat) :
  forall pre,
    diagonal_from (length pre)
      (map (fun t => map (f t) (pre ++ suf)%list) suf)
    = map (fun t => f t t) suf.
Proof.
  induction suf as [|t suf IH]; intros pre; [reflexivity|].
  cbn [map diagonal_from]. f_equal.
  - rewrite <- (length_map (f t) pre), map_app, app_nth2, Nat.sub_diag by lia.
    reflexivity.
  - specialize (IH (pre ++ [t])%list).
    rewrite length_app, Nat.add_1_r in IH. cbn [length] in IH.
    rewrite <- IH. f_equal. apply map_ext. intros t'. now rewrite <- app_assoc.
Qed.

Lemma count_fst_combine (t : nat) : forall l l' : list nat,
  length l = length l' ->
  length (List.filter (fun tp : nat * nat => Nat.eqb tp.1 t) (combine l l'))
  = count_label t l.
Proof.
  unfold count_label.
  induction l as [|a l IH]; intros [|b l'] Hlen; try discriminate; [reflexivity|].
  cbn in *. destruct (Nat.eqb a t); cbn; rewrite IH by lia; reflexivity.
Qed.

Variables y_true y_pred : list nat.
Hypothesis same_length : length y_true = length y_pred.

Let labels := Sklearn.unique_labels y_true y_pred.

Lemma pair_labels_known (tp : nat * nat) :
  tp ∈ combine y_true y_pred -> tp.1 ∈ labels /\ tp.2 ∈ labels.
Proof.
  intros Hin. apply list_elem_of_In in Hin. destruct tp as [a b].
  split; apply elem_of_unique_labels, elem_of_app.
  - left. apply list_elem_of_In. eapply in_combine_l, Hin.
  - right. apply list_elem_of_In. eapply in_combine_r, Hin.
Qed.

Lemma confusion_matrix_row_sums :
  row_sums (Sklearn.confusion_matrix y_true y_pred)
  = map (fun t => count_label t y_true) labels.
Proof.
  unfold row_sums, Sklearn.confusion_matrix. fold labels.
  rewrite map_map. apply map_ext. intros t.
  unfold Sklearn.count_pairs.
  rewrite (sum_filter_lengths
             (fun tp p => Nat.eqb tp.1 t && Nat.eqb tp.2 p) labels).
  rewrite (sum_list_map_ext _ (fun tp => if Nat.eqb tp.1 t then 1 else 0)%nat).
  - rewrite <- (length_filter_as_sum (fun tp : nat * nat => Nat.eqb tp.1 t)).
    now apply count_fst_combine.
  - intros tp Hin. destruct (pair_labels_known tp Hin) as [_ Hb].
    destruct (Nat.eqb tp.1 t); cbn.
    + now apply indicator_sum_present; [apply NoDup_unique_labels|].
    + apply sum_list_zeros.
Qed.

Lemma confusion_matrix_total :
  total (Sklearn.confusion_matrix y_true y_pred) = length y_true.
Proof.
  unfold total. rewrite confusion_matrix_row_sums. unfold count_label.
  rewrite (sum_filter_lengths (fun c k => Nat.eqb c k) labels y_true).
  rewrite (sum_list_map_ext _ (fun _ => 1%nat)).
  - clear. induction y_true as [|a l IH]; [reflexivity|]. cbn. now rewrite IH.
  - intros c Hc. apply indicator_sum_present; [apply NoDup_unique_labels|].
    apply elem_of_unique_labels, elem_of_app. now left.
Qed.

Lemma confusion_matrix_trace :
  trace (Sklearn.confusion_matrix y_true y_pred) = matches y_true y_pred.
Proof.
  unfold trace, Sklearn.confusion_matrix. fold labels.
  pose proof (diagonal_of_table (Sklearn.count_pairs y_true y_pred) labels [])
    as Hdiag.
  cbn [length app] in Hdiag. rewrite Hdiag. clear Hdiag.
  unfold Sklearn.count_pairs, matches.
  rewrite (sum_filter_lengths
             (fun tp t => Nat.eqb tp.1 t && Nat.eqb tp.2 t) labels).
  rewrite (length_filter_as_sum (fun tp : nat * nat => Nat.eqb tp.1 tp.2)).
  apply sum_list_map_ext. intros [a b] Hin.
  destruct (pair_labels_known _ Hin) as [Ha _]. cbn [fst snd] in *.
  destruct (Nat.eqb_spec a b) as [->|Hne].
  - rewrite (sum_list_map_ext _ (fun k => if Nat.eqb b k then 1 else 0)%nat).
    + now apply indicator_sum_present; [apply NoDup_unique_labels|].
    + intros k _. now destruct (Nat.eqb b k).
  - rewrite (sum_list_map_ext _ (fun _ => 0%nat)); [apply sum_list_zeros|].
    intros k _. destruct (Nat.eqb_spec a k) as [->|]; [|reflexivity].
    destruct (Nat.eqb_spec b k) as [->|]; [contradiction | reflexivity].
Qed.

End Counting.

Lemma evaluated_whole_stream (g : globals) (validation_generator : Keras.generator) :
  Keras.batch_size (Keras.gen_args validation_generator) = BATCH_SIZE g ->
  (0 < BATCH_SIZE g)%Z ->
  (Keras.samples validation_generator mod BATCH_SIZE g = 0
   \/ Keras.samples validation_generator < BATCH_SIZE g)%Z ->
  evaluated g validation_generator
  = length (Keras.classes validation_generator).
Proof.
  unfold evaluated, Keras.samples. intros -> Hb.
  set (n := length (Keras.classes validation_generator)).
  set (b := BATCH_SIZE g) in *. intros [Hmod|Hlt].
  - pose proof (Z.div_mod (Z.of_nat n) b ltac:(lia)) as Hdm.
    rewrite Hmod, Z.add_0_r in Hdm.
    destruct (Z.eq_dec (Z.of_nat n / b)%Z 0%Z) as [Hz|Hnz].
    + rewrite Hz in Hdm. lia.
    + assert (0 <= Z.of_nat n / b)%Z by (apply Z.div_pos; lia).
      rewrite Z.max_r by lia. nia.
  - rewrite Z.div_small by lia. rewrite Z.max_l by lia. lia.
Qed.

(** C5 (as amended).  The confusion matrix that [evaluate_model] returns
    covers the samples it ran through the model: the first
    [max(1, samples // BATCH_SIZE)] batches of the validation stream.  Its
    rows are the labels that occur among them; each row sum is the number of
    those samples with that true label; its total is their number; its trace
    is the number of exact matches, and trace over total is the reported
    accuracy.  The samples covered are the whole validation stream when the
    sample count is a multiple of the batch size or smaller than it. *)
Theorem confusion_matrix_counts_evaluated_samples
    (rt : runtime) (g : globals) (output_dir : string) (model : keras_model)
    (validation_generator : Keras.generator) (fs fs' : filesystem)
    (ev : evaluation) :
  evaluate_model rt g output_dir model validation_generator fs = (fs', Ok ev) ->
  let n := evaluated g validation_generator in
  let true_classes := take n (Keras.classes validation_generator) in
  let predicted_classes := map argmax (map (outputs model) (seq 0 n)) in
  let labels := Sklearn.unique_labels true_classes predicted_classes in
  (0 < n <= length (Keras.classes validation_generator))%nat
  /\ length (confusion_matrix ev) = length labels
  /\ row_sums (confusion_matrix ev)
     = map (fun k => count_label k true_classes) labels
  /\ total (confusion_matrix ev) = n
  /\ trace (confusion_matrix ev) = matches true_classes predicted_classes
  /\ accuracy ev
     = Z.of_nat (trace (confusion_matrix ev))
       # Pos.of_nat (total (confusion_matrix ev))
  /\ (Keras.batch_size (Keras.gen_args validation_generator) = BATCH_SIZE g ->
      (0 < BATCH_SIZE g)%Z ->
      (Keras.samples validation_generator mod BATCH_SIZE g = 0
       \/ Keras.samples validation_generator < BATCH_SIZE g)%Z ->
      n = length (Keras.classes validation_generator)).
Proof.
  intros Hrun n true_classes predicted_classes labels.
  assert (Hn : (n <= length (Keras.classes validation_generator))%nat)
    by apply Nat.le_min_r.
  assert (Hpred : length predicted_classes = n)
    by (unfold predicted_classes; now rewrite !length_map, length_seq).
  assert (Hlen : length true_classes = length predicted_classes)
    by (unfold true_classes; rewrite length_take, Hpred; lia).
  unfold evaluate_model, mbind, io_bind, lift, plot_confusion_matrix, writing,
    mret, io_ret, floordiv, predict in Hrun.
  destruct (BATCH_SIZE g =? 0)%Z; [discriminate|].
  change (Nat.min _ (length (Keras.classes validation_generator)))
    with n in Hrun.
  destruct (n =? 0)%nat eqn:En; [discriminate|]. apply Nat.eqb_neq in En.
  rewrite length_map in Hrun.
  change (length (map (outputs model) (seq 0 n)))
    with (length (map (outputs model) (seq 0 n))) in Hrun.
  rewrite length_map, length_seq in Hrun.
  fold true_classes predicted_classes in Hrun.
  destruct (Sklearn.classification_report (rt_sklearn rt) true_classes
              predicted_classes
              (map fst (Keras.class_indices validation_generator)))
    as [report|e]; [|discriminate].
  injection Hrun as _ <-. cbn [confusion_matrix accuracy].
  split; [lia|]. split.
  { unfold Sklearn.confusion_matrix. now rewrite length_map. }
  split; [now apply confusion_matrix_row_sums|].
  split; [rewrite confusion_matrix_total by exact Hlen; lia|].
  split; [now apply confusion_matrix_trace|].
  split.
  - rewrite confusion_matrix_trace, confusion_matrix_total by exact Hlen.
    unfold mean_equal. now rewrite Hlen.
  - apply evaluated_whole_stream.
Qed.

Lemma confusion_matrix_counts_evaluated_samples_witness :
  exists fs' ev,
    evaluate_model (Examples.runtime_with CoreML.reference) default_globals
      "out" Examples.trained_model Examples.validation_stream ∅
    = (fs', Ok ev)
    /\ row_sums (confusion_matrix ev) = [1; 1; 1; 1; 1; 2]%nat
    /\ total (confusion_matrix ev) = 7%nat
    /\ trace (confusion_matrix ev) = 2%nat
    /\ accuracy ev = 2 # 7.
Proof.
  destruct (evaluate_model (Examples.runtime_with CoreML.reference)
              default_globals "out" Examples.trained_model
              Examples.validation_stream ∅)
    as [fs' [ev|e]] eqn:Erun;
    [|apply (f_equal snd) in Erun; vm_compute in Erun; discriminate].
  exists fs', ev. split; [reflexivity|].
  destruct (confusion_matrix_counts_evaluated_samples _ _ _ _ _ _ _ _ Erun)
    as (_ & _ & Hrows & Htotal & Htrace & Hacc & _).
  rewrite Hacc, Htrace, Htotal, Hrows.
  repeat split; vm_compute; reflexivity.
Defined.

(** C5, counterexample.  Seven validation samples with batch size 4: one
    batch of four is evaluated; the two silt samples and the sandy one are
    never seen, so their rows sum to 0 while the validation set holds 2 and
    1 of them. *)
Lemma confusion_matrix_misses_trailing_samples :
  (exists train_generator,
     create_data_generators Keras.keras_contrast Examples.small_globals
       Examples.dataset "dataset" 0.2
     = Ok (train_generator, Examples.small_validation_stream))
  /\ exists fs' ev,
       evaluate_model (Examples.runtime_with CoreML.reference)
         Examples.small_globals "out" Examples.trained_model
         Examples.small_validation_stream Examples.dataset
       = (fs', Ok ev)
       /\ length (confusion_matrix ev) = 6%nat
       /\ row_sums (confusion_matrix ev) = [1; 1; 1; 1; 0; 0]%nat
       /\ map (fun k => count_label k
                          (Keras.classes Examples.small_validation_stream))
               (seq 0 6)
          = [1; 1; 1; 1; 1; 2]%nat.
Proof.
  split.
  - destruct (create_data_generators Keras.keras_contrast Examples.small_globals
                Examples.dataset "dataset" 0.2) as [[tr va]|e] eqn:Egen;
      vm_compute in Egen; [|discriminate].
    exists tr. injection Egen as _ <-. reflexivity.
  - destruct (evaluate_model (Examples.runtime_with CoreML.reference)
                Examples.small_globals "out" Examples.trained_model
                Examples.small_validation_stream Examples.dataset)
      as [fs' [ev|e]] eqn:Erun;
      apply (f_equal snd) in Erun as Hev; vm_compute in Hev; [|discriminate].
    injection Hev as <-.
    eexists _, _. split; [reflexivity|].
    repeat split; vm_compute; reflexivity.
Qed.

(** ** Conversion failures *)

(** The trainer's conversion method never raises, and the only path it may
    write is the bundle's. *)
Lemma trainer_conversion_contained (ct : CoreML.API) (output_dir : string)
    (fs : filesystem) :
  exists fs' converted,
    convert_to_coreml ct output_dir fs = (fs', Ok converted)
    /\ (forall p, p <> coreml_path output_dir -> fs' !! p = fs !! p)
    /\ (converted = true ->
        exists model b size,
          CoreML.import_coremltools ct = Ok tt
          /\ CoreML.load_model ct fs (model_path output_dir) = Ok model
          /\ CoreML.convert ct model trainer_request = Ok b
          /\ (CoreML.save ct
                (CoreML.set_info b "Soil type classification model"
                   "SoilVision" "MIT" "1.0")
                (coreml_path output_dir)).2 = Ok tt
          /\ CoreML.getsize ct fs' (coreml_path output_dir) = Ok size).
Proof.
  unfold convert_to_coreml, try_except_io, mbind, io_bind, lift, reading,
    mret, io_ret, CoreML.save_io.
  destruct (CoreML.import_coremltools ct) as [[]|e] eqn:Eimport;
    [|exists fs, false; repeat split; [discriminate]].
  destruct (CoreML.load_model ct fs (model_path output_dir)) as [model|e]
    eqn:Eload; [|exists fs, false; repeat split; [discriminate]].
  destruct (CoreML.convert ct model trainer_request) as [b|e] eqn:Econv;
    [|exists fs, false; repeat split; [discriminate]].
  set (b' := CoreML.set_info b _ _ _ _).
  assert (Hframe : forall c p, p <> coreml_path output_dir ->
            FS.write fs (coreml_path output_dir) c !! p = fs !! p).
  { intros c p Hp. unfold FS.write. now rewrite lookup_insert_ne. }
  destruct (CoreML.save ct b' (coreml_path output_dir)) as [[c|] [[]|e]]
    eqn:Esave; cbn [snd].
  - destruct (CoreML.getsize ct _ (coreml_path output_dir)) as [size|e] eqn:Esz.
    + eexists _, true. split; [reflexivity|]. split; [apply Hframe|].
      intros _. exists model, b, size. fold b'. rewrite Esave.
      repeat split; try reflexivity; assumption.
    + eexists _, false. split; [reflexivity|]. split; [apply Hframe|].
      discriminate.
  - eexists _, false. split; [reflexivity|]. split; [apply Hframe|].
    discriminate.
  - destruct (CoreML.getsize ct fs (coreml_path output_dir)) as [size|e] eqn:Esz.
    + exists fs, true. split; [reflexivity|]. split; [reflexivity|].
      intros _. exists model, b, size. fold b'. rewrite Esave.
      repeat split; try reflexivity; assumption.
    + exists fs, false. repeat split; discriminate.
  - exists fs, false. repeat split; discriminate.
Qed.

(** The standalone converter never raises either: it returns [None], or the
    output path when every step up to the size report succeeded. *)
Lemma standalone_conversion_never_raises (ct : CoreML.API) (now model_path : string)
    (output_path : option string) (class_labels : option (list string))
    (fs : filesystem) :
  exists fs' r,
    ConvertToCoreml.convert_to_coreml ct now model_path output_path
      class_labels fs = (fs', Ok r)
    /\ (r <> None ->
        exists m req b,
          CoreML.load_model ct fs model_path = Ok m
          /\ CoreML.convert ct m req = Ok b
          /\ cr_class_labels req
             = default ConvertToCoreml.default_class_labels class_labels).
Proof.
  unfold ConvertToCoreml.convert_to_coreml, try_except_io, mbind, io_bind,
    lift, reading, mret, io_ret, CoreML.save_io.
  destruct (CoreML.load_model ct fs model_path) as [m|e];
    [|exists fs, None; split; [reflexivity | congruence]].
  destruct (ConvertToCoreml.conversion_request _ _) as [req|e] eqn:Ereq;
    [|exists fs, None; split; [reflexivity | congruence]].
  assert (Hlabels : cr_class_labels req
            = default ConvertToCoreml.default_class_labels class_labels).
  { unfold ConvertToCoreml.conversion_request in Ereq.
    destruct (ConvertToCoreml.is_image_input (input_shape m)) as [[]|];
      cbn in Ereq; [| |discriminate]; injection Ereq as <-;
      destruct class_labels; reflexivity. }
  destruct (CoreML.convert ct m req) as [b|e] eqn:Econv;
    [|exists fs, None; split; [reflexivity | congruence]].
  destruct (CoreML.save ct _ _) as [[c|] [[]|e]];
    try (eexists _, None; split; [reflexivity | congruence]);
    (destruct (CoreML.getsize ct _ _) as [size|e];
     [|eexists _, None; split; [reflexivity | congruence]]);
    rewrite test_coreml_model_harmless;
    (eexists _, _; split; [reflexivity|]); intros _; exists m, req, b; auto.
Qed.

(** When every step up to the size report succeeds, the standalone converter
    returns the output path, whatever the self-test meets. *)
Lemma standalone_conversion_ignores_self_test (ct : CoreML.API)
    (now model_path out : string) (class_labels : list string)
    (fs : filesystem) (m : keras_model) (req : convert_request) (b : mlmodel)
    (size : Z) :
  CoreML.load_model ct fs model_path = Ok m ->
  ConvertToCoreml.conversion_request (input_shape m) class_labels = Ok req ->
  CoreML.convert ct m req = Ok b ->
  let b' := ConvertToCoreml.stamp now class_labels (input_shape m) b in
  (CoreML.save ct b' out).2 = Ok tt ->
  CoreML.getsize ct (CoreML.save_io ct b' out fs).1 out = Ok size ->
  (ConvertToCoreml.convert_to_coreml ct now model_path (Some out)
     (Some class_labels) fs).2 = Ok (Some out).
Proof.
  intros Hload Hreq Hconv b' Hsave Hsize.
  unfold ConvertToCoreml.convert_to_coreml, try_except_io, mbind, io_bind,
    lift, reading, mret, io_ret.
  rewrite Hload, Hreq, Hconv. fold b'.
  unfold CoreML.save_io in *.
  destruct (CoreML.save ct b' out) as [[c|] r]; cbn [snd fst] in *; subst r;
    rewrite Hsize, test_coreml_model_harmless; reflexivity.
Qed.

(** C7.  The training run that the claim takes for granted does not take
    place: [python train_model.py] stops when the module is compiled, on
    the [global] statement of [main] that follows the first use of
    [EPOCHS], with every command line and every file system, and nothing of
    the script has run: no model is trained or persisted, and no conversion
    is attempted whose failure could be contained.  With that declaration
    repaired, the body of [main] still ends in [sys.exit(1)] under the
    released Keras, before the persister and the conversion are reached.
    The conversion method itself does what the claim says of it: called on
    its own, it returns and does not raise. *)
Theorem training_run_does_not_complete
    (rt : runtime) (args : arguments) (fs : filesystem) :
  main rt args fs
  = (fs, Uncaught
           (SyntaxError "name 'EPOCHS' is used prior to global declaration"))
  /\ (main rt args fs).2 <> Completed
  /\ (rt_keras rt = Keras.keras -> (main_body rt args fs).2 = Exit 1)
  /\ exists fs' converted,
       convert_to_coreml (rt_coreml rt) (arg_output_dir args) fs
       = (fs', Ok converted).
Proof.
  assert (Hmain : main rt args fs
                  = (fs, Uncaught
                           (SyntaxError
                              "name 'EPOCHS' is used prior to global declaration")))
    by reflexivity.
  split; [exact Hmain|]. split.
  - rewrite Hmain. discriminate.
  - split; [apply main_body_exits_with_released_keras|].
    destruct (trainer_conversion_contained (rt_coreml rt)
                (arg_output_dir args) fs) as (fs' & converted & Hrun & _).
    now exists fs', converted.
Qed.

(** A bundle that cannot be inspected after the conversion does not turn
    the conversion into a failure. *)
Lemma failing_self_test_is_not_fatal :
  (ConvertToCoreml.convert_to_coreml Examples.failing_self_test
     "2024-05-01T10:00:00" "model.h5" None None Examples.model_store).2
  = Ok (Some "model.mlmodel").
Proof. vm_compute. reflexivity. Qed.

(** * Further properties of the two scripts *)

(** ** validate_dataset *)

Lemma scan_classes_ok_no_stray fs data_dir types : forall found out r,
  scan_classes fs data_dir types found out = Ok r ->
  no_stray_file fs data_dir types.
Proof.
  induction types as [|c types IH]; intros found out r Hscan c' x Hin.
  - inversion Hin.
  - cbn [scan_classes] in Hscan. unfold FS.exists_, FS.listdir in Hscan.
    destruct (fs !! os_path_join data_dir c) as [[y|entries]|] eqn:E;
      cbn [mbind result_bind] in Hscan; try discriminate.
    + apply elem_of_cons in Hin as [->|Hin].
      * unfold class_dir_of. rewrite E. discriminate.
      * eapply IH; eassumption.
    + apply elem_of_cons in Hin as [->|Hin].
      * unfold class_dir_of. rewrite E. discriminate.
      * eapply IH; eassumption.
Qed.

Lemma absent_nil_all_exist fs data_dir types c :
  absent fs data_dir types = [] -> c ∈ types ->
  FS.exists_ fs (class_dir_of data_dir c) = true.
Proof.
  intros Habs Hin.
  destruct (FS.exists_ fs (class_dir_of data_dir c)) eqn:E; [reflexivity|].
  assert (Hc : c ∈ absent fs data_dir types) by (apply elem_of_absent; auto).
  rewrite Habs in Hc. inversion Hc.
Qed.

(** X1.  [validate_dataset] never answers [False]: when it returns, it
    returns [True], the root exists and each of the six class paths is a
    directory. *)
Theorem validate_dataset_success_means_layout
    (fs : filesystem) (data_dir : string) (answer : bool) :
  validate_dataset fs data_dir = Ok answer ->
  answer = true
  /\ FS.exists_ fs data_dir = true
  /\ forall c, c ∈ SOIL_TYPES -> FS.isdir fs (class_dir_of data_dir c) = true.
Proof.
  intros Hok.
  assert (Hstray : no_stray_file fs data_dir SOIL_TYPES).
  { unfold validate_dataset, validate_dataset_report in Hok.
    destruct (negb (FS.exists_ fs data_dir)); [discriminate|].
    destruct (scan_classes fs data_dir SOIL_TYPES ∅ []) as [r|e] eqn:Escan;
      [|discriminate].
    eapply scan_classes_ok_no_stray; eassumption. }
  rewrite (validate_dataset_layout fs data_dir Hstray) in Hok.
  destruct (FS.exists_ fs data_dir) eqn:Eroot; cbn [negb] in Hok;
    [|discriminate].
  destruct (absent fs data_dir SOIL_TYPES) as [|a l] eqn:Eabs; [|discriminate].
  injection Hok as <-. split; [reflexivity|]. split; [reflexivity|].
  intros c Hc. pose proof (absent_nil_all_exist _ _ _ c Eabs Hc) as Hex.
  unfold FS.exists_, FS.isdir in *.
  destruct (fs !! class_dir_of data_dir c) as [[x|entries]|] eqn:E;
    try discriminate; [|reflexivity].
  exfalso. exact (Hstray c x Hc E).
Qed.

Lemma validate_dataset_success_means_layout_witness :
  validate_dataset Examples.dataset "dataset" = Ok true
  /\ FS.exists_ Examples.dataset "dataset" = true
  /\ forall c, c ∈ SOIL_TYPES ->
       FS.isdir Examples.dataset (class_dir_of "dataset" c) = true.
Proof.
  assert (H : validate_dataset Examples.dataset "dataset" = Ok true)
    by (vm_compute; reflexivity).
  split; [exact H|].
  exact (proj2 (validate_dataset_success_means_layout
                  Examples.dataset "dataset" true H)).
Defined.

(** X2.  On a root where no class path is taken by a regular file: a missing
    root is a [FileNotFoundError]; a root with absent class directories is
    the [ValueError] whose set holds exactly the absent soil types; a root
    with all six is accepted. *)
Theorem validate_dataset_contract (fs : filesystem) (data_dir : string) :
  no_stray_file fs data_dir SOIL_TYPES ->
  (FS.exists_ fs data_dir = false ->
   validate_dataset fs data_dir = Raise (FileNotFoundError data_dir))
  /\ (FS.exists_ fs data_dir = true ->
      absent fs data_dir SOIL_TYPES <> [] ->
      exists missing,
        validate_dataset fs data_dir = Raise (ValueError missing)
        /\ forall c, c ∈ missing
             <-> c ∈ SOIL_TYPES
                 /\ FS.exists_ fs (class_dir_of data_dir c) = false)
  /\ (FS.exists_ fs data_dir = true ->
      absent fs data_dir SOIL_TYPES = [] ->
      validate_dataset fs data_dir = Ok true).
Proof.
  intros Hstray. rewrite (validate_dataset_layout fs data_dir Hstray).
  split; [|split].
  - intros ->. reflexivity.
  - intros -> Habs. cbn [negb].
    exists (list_to_set (absent fs data_dir SOIL_TYPES)). split.
    + destruct (absent fs data_dir SOIL_TYPES); [contradiction | reflexivity].
    + intros c. rewrite elem_of_list_to_set. apply elem_of_absent.
  - intros -> ->. reflexivity.
Qed.

Lemma validate_dataset_contract_witness :
  validate_dataset MoreExamples.dataset_without_peat "dataset"
  = Raise (ValueError {[ "peat" ]}).
Proof.
  destruct (validate_dataset_contract MoreExamples.dataset_without_peat "dataset")
    as (_ & Hmissing & _).
  - intros c x Hc.
    repeat (apply elem_of_cons in Hc as [->|Hc]; [vm_compute; discriminate|]).
    inversion Hc.
  - destruct (Hmissing ltac:(vm_compute; reflexivity)
                       ltac:(vm_compute; discriminate))
      as (missing & -> & Hiff).
    f_equal. f_equal. apply set_eq. intros c. rewrite Hiff, elem_of_singleton.
    split.
    + intros [Hc Hex].
      repeat (apply elem_of_cons in Hc as [->|Hc];
              [try reflexivity; vm_compute in Hex; discriminate|]).
      inversion Hc.
    + intros ->. split; [|vm_compute; reflexivity].
      apply list_elem_of_In. cbn. tauto.
Defined.

Lemma scan_classes_same_layout fs1 fs2 data_dir types :
  (forall c, c ∈ types ->
     node_kind (fs1 !! class_dir_of data_dir c)
     = node_kind (fs2 !! class_dir_of data_dir c)) ->
  forall found out1 out2,
    same_scan (scan_classes fs1 data_dir types found out1)
              (scan_classes fs2 data_dir types found out2).
Proof.
  induction types as [|c types IH]; intros Hkind found out1 out2.
  - reflexivity.
  - assert (Hc := Hkind c ltac:(left)).
    assert (Hrest : forall c', c' ∈ types ->
              node_kind (fs1 !! class_dir_of data_dir c')
              = node_kind (fs2 !! class_dir_of data_dir c'))
      by (intros c' Hin; apply Hkind; now right).
    cbn [scan_classes]. unfold FS.exists_, FS.listdir.
    unfold class_dir_of in Hc.
    destruct (fs1 !! os_path_join data_dir c) as [[x1|e1]|];
      destruct (fs2 !! os_path_join data_dir c) as [[x2|e2]|];
      try discriminate; cbn [mbind result_bind].
    + reflexivity.
    + apply IH, Hrest.
    + apply IH, Hrest.
Qed.

(** X3.  The verdict of [validate_dataset] depends on the layout alone: two
    file systems in which the root exists alike and each class path holds
    the same kind of node get the same answer or the same exception,
    whatever files, sub-directories or other entries they contain. *)
Theorem validate_dataset_reads_layout_only
    (fs1 fs2 : filesystem) (data_dir : string) :
  same_layout fs1 fs2 data_dir ->
  validate_dataset fs1 data_dir = validate_dataset fs2 data_dir.
Proof.
  intros [Hroot Hkind]. unfold validate_dataset, validate_dataset_report.
  rewrite Hroot. destruct (negb (FS.exists_ fs2 data_dir)); [reflexivity|].
  pose proof (scan_classes_same_layout fs1 fs2 data_dir SOIL_TYPES Hkind ∅ [] [])
    as Hscan.
  destruct (scan_classes fs1 data_dir SOIL_TYPES ∅ []) as [r1|e1];
    destruct (scan_classes fs2 data_dir SOIL_TYPES ∅ []) as [r2|e2];
    cbn in Hscan; try contradiction.
  - cbn [mbind result_bind]. rewrite Hscan.
    destruct (decide (_ = ∅)); reflexivity.
  - now subst.
Qed.

Lemma validate_dataset_reads_layout_only_witness :
  validate_dataset Examples.dataset "dataset"
  = validate_dataset Examples.empty_dataset "dataset".
Proof.
  apply validate_dataset_reads_layout_only. split; [vm_compute; reflexivity|].
  intros c Hc.
  repeat (apply elem_of_cons in Hc as [->|Hc]; [vm_compute; reflexivity|]).
  inversion Hc.
Defined.

(** *** Image names *)

Lemma length_append (a b : string) :
  String.length (a ++ b) = (String.length a + String.length b)%nat.
Proof.
  induction a as [|x a IH]; [reflexivity|].
  change (S (String.length (a ++ b)) = S (String.length a + String.length b)).
  now rewrite IH.
Qed.

Lemma substring_whole (b : string) : substring 0 (String.length b) b = b.
Proof. induction b as [|x b IH]; [reflexivity|]. cbn. now rewrite IH. Qed.

Lemma substring_append_r (a b : string) :
  substring (String.length a) (String.length b) (a ++ b) = b.
Proof.
  induction a as [|x a IH]; [apply substring_whole|].
  change (substring (String.length a) (String.length b) (a ++ b) = b).
  exact IH.
Qed.

Lemma endswith_append (a b : string) : endswith (a ++ b) b = true.
Proof.
  unfold endswith. rewrite length_append.
  replace (String.length a + String.length b - String.length b)%nat
    with (String.length a) by lia.
  rewrite substring_append_r, String.eqb_refl, andb_true_r.
  apply Nat.leb_le. lia.
Qed.

Lemma lower_append (a b : string) : lower (a ++ b) = lower a ++ lower b.
Proof.
  induction a as [|x a IH]; [reflexivity|].
  change (String (lower_ascii x) (lower (a ++ b))
          = String (lower_ascii x) (lower a ++ lower b)).
  now rewrite IH.
Qed.

(** X4.  The image count is case-insensitive in the extension: a name made
    of any stem and of an extension that lower-cases to [.jpg], [.jpeg],
    [.png] or [.bmp] is counted. *)
Theorem count_images_ignores_case
    (stem ext : string) (names : list string) :
  In (lower ext) image_suffixes ->
  count_images ((stem ++ ext) :: names) = S (count_images names).
Proof.
  intros Hext. unfold count_images. cbn [List.filter].
  assert (H : endswith_any (lower (stem ++ ext)) image_suffixes = true).
  { unfold endswith_any. apply existsb_exists. exists (lower ext).
    split; [exact Hext|]. rewrite lower_append. apply endswith_append. }
  rewrite H. reflexivity.
Qed.

Lemma count_images_ignores_case_witness :
  count_images ["IMG_0042.JPG"; "notes.txt"] = 1%nat.
Proof.
  apply (count_images_ignores_case "IMG_0042" ".JPG" ["notes.txt"]).
  cbn. tauto.
Defined.

(** ** evaluate_model *)

(** X5.  [evaluate_model] writes one file and only at its end: when it
    raises, the file system is as before; when it returns, the file system
    differs by [confusion_matrix.png] in the output directory and by nothing
    else. *)
Theorem evaluate_model_writes_only_the_plot
    (rt : runtime) (g : globals) (output_dir : string) (model : keras_model)
    (validation_generator : Keras.generator) (fs : filesystem) :
  match evaluate_model rt g output_dir model validation_generator fs with
  | (fs', Raise _) => fs' = fs
  | (fs', Ok _) =>
      fs' = FS.write fs (os_path_join output_dir "confusion_matrix.png") Blob
  end.
Proof.
  unfold evaluate_model, mbind, io_bind, lift, plot_confusion_matrix, writing,
    mret, io_ret.
  destruct (floordiv _ _) as [q|e]; [|reflexivity].
  destruct (predict _ _ _) as [predictions|e]; [|reflexivity].
  destruct (Sklearn.classification_report _ _ _ _) as [report|e];
    reflexivity.
Qed.

(** The number of samples in [max(1, samples // BATCH_SIZE)] batches of a
    stream, when the batch size is positive. *)
Lemma evaluated_by_remainder
    (g : globals) (validation_generator : Keras.generator) :
  Keras.batch_size (Keras.gen_args validation_generator) = BATCH_SIZE g ->
  (0 < BATCH_SIZE g)%Z ->
  Z.of_nat (evaluated g validation_generator)
  = (if Keras.samples validation_generator <? BATCH_SIZE g
     then Keras.samples validation_generator
     else Keras.samples validation_generator
          - Keras.samples validation_generator mod BATCH_SIZE g)%Z.
Proof.
  unfold evaluated, Keras.samples. intros -> Hb.
  set (n := length (Keras.classes validation_generator)).
  set (b := BATCH_SIZE g) in *.
  destruct (Z.ltb_spec (Z.of_nat n) b) as [Hlt|Hge].
  - rewrite Z.div_small by lia. rewrite Z.max_l by lia. lia.
  - assert (1 <= Z.of_nat n / b)%Z by (apply Z.div_le_lower_bound; lia).
    rewrite Z.max_r by lia.
    pose proof (Z.div_mod (Z.of_nat n) b ltac:(lia)) as Hdm.
    pose proof (Z.mod_pos_bound (Z.of_nat n) b Hb) as Hmod.
    replace (Z.of_nat n / b * b)%Z with (Z.of_nat n - Z.of_nat n mod b)%Z by lia.
    lia.
Qed.

(** The matrix that [evaluate_model] returns counts the samples that went
    through [predict]. *)
Lemma evaluate_model_total
    (rt : runtime) (g : globals) (output_dir : string) (model : keras_model)
    (validation_generator : Keras.generator) (fs fs' : filesystem)
    (ev : evaluation) :
  evaluate_model rt g output_dir model validation_generator fs = (fs', Ok ev) ->
  total (confusion_matrix ev) = evaluated g validation_generator.
Proof.
  intros Hrun. set (n := evaluated g validation_generator).
  set (true_classes := take n (Keras.classes validation_generator)).
  set (predicted_classes := map argmax (map (outputs model) (seq 0 n))).
  assert (Hn : (n <= length (Keras.classes validation_generator))%nat)
    by apply Nat.le_min_r.
  assert (Hpred : length predicted_classes = n)
    by (unfold predicted_classes; now rewrite !length_map, length_seq).
  assert (Hlen : length true_classes = length predicted_classes)
    by (unfold true_classes; rewrite length_take, Hpred; lia).
  unfold evaluate_model, mbind, io_bind, lift, plot_confusion_matrix, writing,
    mret, io_ret, floordiv, predict in Hrun.
  destruct (BATCH_SIZE g =? 0)%Z; [discriminate|].
  change (Nat.min _ (length (Keras.classes validation_generator)))
    with n in Hrun.
  destruct (n =? 0)%nat eqn:En; [discriminate|].
  rewrite !length_map, length_seq in Hrun.
  fold true_classes predicted_classes in Hrun.
  destruct (Sklearn.classification_report (rt_sklearn rt) true_classes
              predicted_classes
              (map fst (Keras.class_indices validation_generator)))
    as [report|e]; [|discriminate].
  injection Hrun as _ <-. cbn [confusion_matrix].
  rewrite confusion_matrix_total by exact Hlen. now rewrite Hlen.
Qed.

(** X6.  With a positive batch size, shared by the generator, the matrix
    that [evaluate_model] returns covers the whole validation stream when
    the stream is shorter than one batch, and otherwise all of it but the
    [samples mod BATCH_SIZE] samples at its end. *)
Theorem evaluation_drops_the_remainder
    (rt : runtime) (g : globals) (output_dir : string) (model : keras_model)
    (validation_generator : Keras.generator) (fs fs' : filesystem)
    (ev : evaluation) :
  evaluate_model rt g output_dir model validation_generator fs = (fs', Ok ev) ->
  Keras.batch_size (Keras.gen_args validation_generator) = BATCH_SIZE g ->
  (0 < BATCH_SIZE g)%Z ->
  Z.of_nat (total (confusion_matrix ev))
  = (if Keras.samples validation_generator <? BATCH_SIZE g
     then Keras.samples validation_generator
     else Keras.samples validation_generator
          - Keras.samples validation_generator mod BATCH_SIZE g)%Z.
Proof.
  intros Hrun Hbatch Hb.
  rewrite (evaluate_model_total _ _ _ _ _ _ _ _ Hrun).
  now apply evaluated_by_remainder.
Qed.

Lemma evaluation_drops_the_remainder_witness :
  exists fs' ev,
    evaluate_model (Examples.runtime_with CoreML.reference)
      Examples.small_globals "out" Examples.trained_model
      Examples.small_validation_stream Examples.dataset
    = (fs', Ok ev)
    /\ Z.of_nat (total (confusion_matrix ev)) = (7 - 7 mod 4)%Z.
Proof.
  destruct (evaluate_model (Examples.runtime_with CoreML.reference)
              Examples.small_globals "out" Examples.trained_model
              Examples.small_validation_stream Examples.dataset)
    as [fs' [ev|e]] eqn:Erun;
    [|apply (f_equal snd) in Erun; vm_compute in Erun; discriminate].
  exists fs', ev. split; [reflexivity|].
  exact (evaluation_drops_the_remainder _ _ _ _ _ _ _ _ Erun eq_refl eq_refl).
Defined.

Lemma matches_le (l l' : list nat) : (matches l l' <= length l')%nat.
Proof.
  unfold matches.
  etransitivity; [apply List.filter_length_le|].
  rewrite length_combine. lia.
Qed.

Lemma matches_all : forall l l' : list nat,
  length l = length l' -> (matches l l' = length l' <-> l = l').
Proof.
  unfold matches.
  induction l as [|a l IH]; intros [|b l'] Hlen; try discriminate.
  - split; reflexivity.
  - cbn in Hlen. injection Hlen as Hlen. cbn [combine List.filter fst snd].
    destruct (Nat.eqb_spec a b) as [->|Hne].
    + cbn [length]. rewrite Nat.succ_inj_wd, (IH l' Hlen).
      split; [now intros -> | now intros [= ->]].
    + split; [|intros [= ? _]; contradiction].
      intros H.
      pose proof (List.filter_length_le (fun tp : nat * nat => Nat.eqb tp.1 tp.2)
                    (combine l l')) as Hle.
      rewrite length_combine in Hle. cbn [length] in H. lia.
Qed.

(** X7.  The accuracy that [evaluate_model] reports lies between 0 and 1,
    and it is 1 exactly when every evaluated sample is predicted as its true
    class. *)
Theorem accuracy_is_a_fraction
    (rt : runtime) (g : globals) (output_dir : string) (model : keras_model)
    (validation_generator : Keras.generator) (fs fs' : filesystem)
    (ev : evaluation) :
  evaluate_model rt g output_dir model validation_generator fs = (fs', Ok ev) ->
  let n := evaluated g validation_generator in
  (0 <= accuracy ev)%Q
  /\ (accuracy ev <= 1)%Q
  /\ (accuracy ev == 1
      <-> take n (Keras.classes validation_generator)
          = map argmax (map (outputs model) (seq 0 n))).
Proof.
  intros Hrun n.
  assert (Hn : (n <= length (Keras.classes validation_generator))%nat)
    by apply Nat.le_min_r.
  set (true_classes := take n (Keras.classes validation_generator)).
  set (predicted_classes := map argmax (map (outputs model) (seq 0 n))).
  assert (Hpred : length predicted_classes = n)
    by (unfold predicted_classes; now rewrite !length_map, length_seq).
  assert (Hlen : length true_classes = length predicted_classes)
    by (unfold true_classes; rewrite length_take, Hpred; lia).
  unfold evaluate_model, mbind, io_bind, lift, plot_confusion_matrix, writing,
    mret, io_ret, floordiv, predict in Hrun.
  destruct (BATCH_SIZE g =? 0)%Z; [discriminate|].
  change (Nat.min _ (length (Keras.classes validation_generator)))
    with n in Hrun.
  destruct (n =? 0)%nat eqn:En; [discriminate|]. apply Nat.eqb_neq in En.
  rewrite !length_map, length_seq in Hrun.
  fold true_classes predicted_classes in Hrun.
  destruct (Sklearn.classification_report _ _ _ _) as [report|e];
    [|discriminate].
  injection Hrun as _ <-. cbn [accuracy]. unfold mean_equal.
  pose proof (matches_le true_classes predicted_classes) as Hle.
  pose proof (matches_all true_classes predicted_classes Hlen) as Hall.
  rewrite Hpred in *.
  assert (Hpos : Z.pos (Pos.of_nat n) = Z.of_nat n)
    by (rewrite <- positive_nat_Z, Nat2Pos.id by exact En; reflexivity).
  unfold Qle, Qeq. cbn [Qnum Qden]. rewrite Hpos.
  split; [lia|]. split; [lia|].
  rewrite <- Hall. lia.
Qed.

Lemma accuracy_is_a_fraction_witness :
  exists fs' ev,
    evaluate_model (Examples.runtime_with CoreML.reference) default_globals
      "out" Examples.trained_model Examples.validation_stream ∅
    = (fs', Ok ev)
    /\ (0 <= accuracy ev)%Q /\ (accuracy ev <= 1)%Q /\ ~ accuracy ev == 1.
Proof.
  destruct (evaluate_model (Examples.runtime_with CoreML.reference)
              default_globals "out" Examples.trained_model
              Examples.validation_stream ∅)
    as [fs' [ev|e]] eqn:Erun;
    [|apply (f_equal snd) in Erun; vm_compute in Erun; discriminate].
  exists fs', ev. split; [reflexivity|].
  destruct (accuracy_is_a_fraction _ _ _ _ _ _ _ _ Erun) as (H0 & H1 & Hall).
  split; [exact H0|]. split; [exact H1|].
  intros Hone. apply Hall in Hone. vm_compute in Hone. discriminate.
Defined.

(** ** The trainer's conversion method *)

(** X8.  When coremltools cannot be imported, the saved model cannot be
    loaded, or [ct.convert] refuses the model, the trainer's
    [convert_to_coreml] returns [False] and leaves the file system exactly
    as it was: no partial bundle is written. *)
Theorem failed_conversion_writes_nothing
    (ct : CoreML.API) (output_dir : string) (fs : filesystem) :
  (exists e, CoreML.import_coremltools ct = Raise e)
  \/ (exists e, CoreML.load_model ct fs (model_path output_dir) = Raise e)
  \/ (exists model e,
        CoreML.load_model ct fs (model_path output_dir) = Ok model
        /\ CoreML.convert ct model trainer_request = Raise e) ->
  convert_to_coreml ct output_dir fs = (fs, Ok false).
Proof.
  unfold convert_to_coreml, try_except_io, mbind, io_bind, lift, reading,
    mret, io_ret.
  intros [[e He]|[[e He]|(model & e & Hm & He)]].
  - rewrite He. reflexivity.
  - destruct (CoreML.import_coremltools ct) as [[]|e']; [|reflexivity].
    rewrite He. reflexivity.
  - destruct (CoreML.import_coremltools ct) as [[]|e']; [|reflexivity].
    rewrite Hm, He. reflexivity.
Qed.

Lemma failed_conversion_writes_nothing_witness :
  convert_to_coreml Examples.no_coremltools "out" MoreExamples.persisted
  = (MoreExamples.persisted, Ok false).
Proof.
  apply failed_conversion_writes_nothing.
  left. exists (ImportError "coremltools"). reflexivity.
Defined.

(** ** convert_to_coreml.py *)

(** The standalone converter leaves the file system as it was or with one
    new content at the output path; a returned path is the output path. *)
Lemma standalone_conversion_shape (ct : CoreML.API) (now model_path : string)
    (output_path : option string) (class_labels : option (list string))
    (fs : filesystem) :
  let out := resolved_output_path model_path output_path in
  let run := ConvertToCoreml.convert_to_coreml ct now model_path output_path
               class_labels fs in
  (run.1 = fs \/ exists c, run.1 = FS.write fs out c)
  /\ (run.2 = Ok None \/ run.2 = Ok (Some out))
  /\ (saves_model ct -> run.2 = Ok (Some out) ->
      exists b, run.1 = FS.write fs out (MLModelFile b)).
Proof.
  intros out run. unfold run, ConvertToCoreml.convert_to_coreml, try_except_io,
    mbind, io_bind, lift, reading, mret, io_ret, CoreML.save_io.
  fold (resolved_output_path model_path output_path). fold out.
  destruct (CoreML.load_model ct fs model_path) as [m|e];
    [|cbn; split; [auto|split; [auto|discriminate]]].
  destruct (ConvertToCoreml.conversion_request _ _) as [req|e];
    [|cbn; split; [auto|split; [auto|discriminate]]].
  destruct (CoreML.convert ct m req) as [b|e];
    [|cbn; split; [auto|split; [auto|discriminate]]].
  set (b' := ConvertToCoreml.stamp _ _ _ _).
  destruct (CoreML.save ct b' out) as [[c|] [[]|e]] eqn:Esave.
  - destruct (CoreML.getsize ct _ _) as [size|e].
    + rewrite test_coreml_model_harmless. cbn [fst snd].
      split; [eauto|]. split; [auto|]. intros Hsave _.
      specialize (Hsave b' out). rewrite Esave in Hsave. cbn in Hsave.
      injection Hsave as ->. eauto.
    + cbn [fst snd]. split; [eauto|]. split; [auto|discriminate].
  - cbn [fst snd]. split; [eauto|]. split; [auto|discriminate].
  - destruct (CoreML.getsize ct _ _) as [size|e].
    + rewrite test_coreml_model_harmless. cbn [fst snd].
      split; [auto|]. split; [auto|]. intros Hsave _.
      specialize (Hsave b' out). rewrite Esave in Hsave. discriminate.
    + cbn [fst snd]. split; [auto|]. split; [auto|discriminate].
  - cbn [fst snd]. split; [auto|]. split; [auto|discriminate].
Qed.

(** X13.  The standalone [convert_to_coreml] writes nowhere but at its
    output path (the given one, or the model path with [.h5] replaced):
    every other path is left as it was, on success and on failure. *)
Theorem standalone_conversion_writes_only_the_output
    (ct : CoreML.API) (now model_path : string) (output_path : option string)
    (class_labels : option (list string)) (fs : filesystem) (p : string) :
  p <> resolved_output_path model_path output_path ->
  (ConvertToCoreml.convert_to_coreml ct now model_path output_path
     class_labels fs).1 !! p = fs !! p.
Proof.
  intros Hp.
  destruct (standalone_conversion_shape ct now model_path output_path
              class_labels fs) as [[->|[c ->]] _]; [reflexivity|].
  unfold FS.write. now rewrite lookup_insert_ne by (apply not_eq_sym, Hp).
Qed.

Lemma standalone_conversion_writes_only_the_output_witness :
  (ConvertToCoreml.convert_to_coreml CoreML.reference "2024-05-01T10:00:00"
     "model.h5" None None Examples.model_store).1 !! "model.h5"
  = Some (File (SavedModel Examples.saved_model)).
Proof.
  rewrite (standalone_conversion_writes_only_the_output CoreML.reference
             "2024-05-01T10:00:00" "model.h5" None None Examples.model_store
             "model.h5" ltac:(vm_compute; discriminate)).
  reflexivity.
Defined.

(** X14.  Without [--create_sample], the exit status of the conversion
    script depends only on the model path: it ends normally when a non-empty
    path to an existing file is given, also when the conversion itself
    failed and returned [None], and with [sys.exit(1)] otherwise. *)
Theorem standalone_exit_status
    (rt : ConvertToCoreml.runtime) (model_path output_path : option string)
    (class_labels : list string) (fs : filesystem) :
  (ConvertToCoreml.main rt
     {| ConvertToCoreml.arg_model_path := model_path;
        ConvertToCoreml.arg_output_path := output_path;
        ConvertToCoreml.arg_create_sample := false;
        ConvertToCoreml.arg_class_labels := class_labels |} fs).2
  = match model_path with
    | Some p =>
        if negb (String.eqb p "") && FS.exists_ fs p then Completed else Exit 1
    | None => Exit 1
    end.
Proof.
  unfold ConvertToCoreml.main. cbn [ConvertToCoreml.arg_create_sample
    ConvertToCoreml.arg_model_path ConvertToCoreml.arg_output_path
    ConvertToCoreml.arg_class_labels].
  destruct model_path as [p|]; [|reflexivity].
  destruct (String.eqb p ""); [reflexivity|].
  destruct (FS.exists_ fs p); [|reflexivity]. cbn [negb andb].
  destruct (standalone_conversion_never_raises
              (ConvertToCoreml.rt_coreml rt) (ConvertToCoreml.rt_now rt) p
              output_path (Some class_labels) fs) as (fs' & r & -> & _).
  reflexivity.
Qed.

(** *** The derived output path *)

Lemma replace_absent (old new : string) : forall s,
  occurs old s = false -> replace s old new = s.
Proof.
  unfold replace. induction s as [|c s IH]; intros Hocc.
  - reflexivity.
  - cbn [occurs] in Hocc. apply orb_false_iff in Hocc as [Hpre Hrest].
    cbn [replace_from]. rewrite Hpre, (IH Hrest). reflexivity.
Qed.

Lemma prefix_h5_append (c1 : ascii) (s : string) :
  String.prefix ".h5" (String c1 s) = false ->
  String.prefix ".h5" (String c1 s ++ ".h5") = false.
Proof.
  destruct s as [|c2 [|c3 s]]; intros H.
  - change (String c1 "" ++ ".h5") with (String c1 ".h5").
    cbn [String.prefix] in *. destruct (ascii_dec "." c1); reflexivity.
  - change (String c1 (String c2 "") ++ ".h5")
      with (String c1 (String c2 ".h5")).
    cbn [String.prefix] in *.
    destruct (ascii_dec "." c1); [|reflexivity].
    destruct (ascii_dec "h" c2); reflexivity.
  - change (String c1 (String c2 (String c3 s)) ++ ".h5")
      with (String c1 (String c2 (String c3 (s ++ ".h5")))).
    cbn [String.prefix] in *.
    destruct (ascii_dec "." c1); [|reflexivity].
    destruct (ascii_dec "h" c2); [|reflexivity].
    destruct (ascii_dec "5" c3); [|reflexivity].
    destruct s; discriminate.
Qed.

Lemma replace_h5_suffix : forall stem,
  occurs ".h5" stem = false ->
  replace (stem ++ ".h5") ".h5" ".mlmodel" = stem ++ ".mlmodel".
Proof.
  unfold replace. induction stem as [|c stem IH]; intros Hocc.
  - reflexivity.
  - cbn [occurs] in Hocc. apply orb_false_iff in Hocc as [Hpre Hrest].
    change (String c stem ++ ".h5") with (String c (stem ++ ".h5")).
    change (String c stem ++ ".mlmodel") with (String c (stem ++ ".mlmodel")).
    cbn [replace_from].
    change (String c (stem ++ ".h5")) with (String c stem ++ ".h5").
    rewrite (prefix_h5_append _ _ Hpre), (IH Hrest). reflexivity.
Qed.

(** X15.  When no output path is given and the model path does not contain
    [.h5], the output path is the model path itself: a successful
    conversion (with a library that saves the model it is given) replaces
    the source model file by the bundle. *)
Theorem conversion_can_overwrite_its_source
    (ct : CoreML.API) (now model_path : string)
    (class_labels : option (list string)) (fs fs' : filesystem) (out : string) :
  occurs ".h5" model_path = false ->
  saves_model ct ->
  ConvertToCoreml.convert_to_coreml ct now model_path None class_labels fs
    = (fs', Ok (Some out)) ->
  out = model_path
  /\ exists b, fs' !! model_path = Some (File (MLModelFile b)).
Proof.
  intros Hocc Hsave Hrun.
  destruct (standalone_conversion_shape ct now model_path None class_labels fs)
    as (_ & Hres & Hbundle).
  rewrite Hrun in Hres, Hbundle. cbn [fst snd] in Hres, Hbundle.
  unfold resolved_output_path in Hres, Hbundle.
  rewrite (replace_absent ".h5" ".mlmodel" model_path Hocc) in Hres, Hbundle.
  destruct Hres as [Hres|Hres]; [discriminate|]. injection Hres as ->.
  split; [reflexivity|].
  destruct (Hbundle Hsave eq_refl) as [b ->]. exists b.
  apply lookup_insert_eq.
Qed.

Lemma conversion_can_overwrite_its_source_witness :
  exists fs' b,
    ConvertToCoreml.convert_to_coreml CoreML.reference "2024-05-01T10:00:00"
      "model.keras" None None MoreExamples.keras_store
    = (fs', Ok (Some "model.keras"))
    /\ fs' !! "model.keras" = Some (File (MLModelFile b)).
Proof.
  destruct (ConvertToCoreml.convert_to_coreml CoreML.reference
              "2024-05-01T10:00:00" "model.keras" None None
              MoreExamples.keras_store) as [fs' r] eqn:Erun.
  assert (Hr : r = Ok (Some "model.keras"))
    by (apply (f_equal snd) in Erun; vm_compute in Erun; now subst r).
  subst r.
  destruct (conversion_can_overwrite_its_source CoreML.reference
              "2024-05-01T10:00:00" "model.keras" None
              MoreExamples.keras_store fs' "model.keras"
              eq_refl ltac:(intros b p; reflexivity) Erun)
    as [_ [b Hb]].
  exists fs', b. split; [reflexivity | exact Hb].
Defined.

(** X16.  For a model path that ends in [.h5] and has no other [.h5] in
    it, a conversion without an output path returns the path with the
    ending replaced by [.mlmodel]. *)
Theorem conversion_output_replaces_the_extension
    (ct : CoreML.API) (now stem : string)
    (class_labels : option (list string)) (fs fs' : filesystem) (out : string) :
  occurs ".h5" stem = false ->
  ConvertToCoreml.convert_to_coreml ct now (stem ++ ".h5") None class_labels fs
    = (fs', Ok (Some out)) ->
  out = stem ++ ".mlmodel".
Proof.
  intros Hocc Hrun.
  destruct (standalone_conversion_shape ct now (stem ++ ".h5") None
              class_labels fs) as (_ & Hres & _).
  rewrite Hrun in Hres. cbn [fst snd] in Hres.
  unfold resolved_output_path in Hres.
  rewrite (replace_h5_suffix stem Hocc) in Hres.
  destruct Hres as [Hres|Hres]; [discriminate|]. now injection Hres.
Qed.

Lemma conversion_output_replaces_the_extension_witness :
  (ConvertToCoreml.convert_to_coreml CoreML.reference "2024-05-01T10:00:00"
     "model.h5" None None Examples.model_store).2
  = Ok (Some "model.mlmodel").
Proof.
  destruct (ConvertToCoreml.convert_to_coreml CoreML.reference
              "2024-05-01T10:00:00" "model.h5" None None Examples.model_store)
    as [fs' [[out|]|e]] eqn:Erun;
    try (apply (f_equal snd) in Erun; vm_compute in Erun; discriminate).
  cbn [snd]. do 2 f_equal.
  exact (conversion_output_replaces_the_extension CoreML.reference
           "2024-05-01T10:00:00" "model" None Examples.model_store fs' out
           eq_refl Erun).
Defined.

(** X17.  In [--create_sample] mode the script ends normally whether or not
    the conversion worked, and it leaves the placeholder model it built at
    [./sample_soil_model.h5]; if building that model fails, the exception
    escapes and nothing is written. *)
Theorem sample_mode_leaves_the_sample_model
    (rt : ConvertToCoreml.runtime) (model_path output_path : option string)
    (class_labels : list string) (fs : filesystem) :
  let args := {| ConvertToCoreml.arg_model_path := model_path;
                 ConvertToCoreml.arg_output_path := output_path;
                 ConvertToCoreml.arg_create_sample := true;
                 ConvertToCoreml.arg_class_labels := class_labels |} in
  match ConvertToCoreml.rt_sequential rt
          [None; Some 224; Some 224; Some 3]%Z 6%nat with
  | Ok sample =>
      (ConvertToCoreml.main rt args fs).2 = Completed
      /\ (ConvertToCoreml.main rt args fs).1 !! ConvertToCoreml.sample_path
         = Some (File (SavedModel sample))
  | Raise e => ConvertToCoreml.main rt args fs = (fs, Uncaught e)
  end.
Proof.
  intros args. unfold ConvertToCoreml.main, ConvertToCoreml.create_sample_model,
    mbind, io_bind, lift, writing, mret, io_ret.
  cbn [args ConvertToCoreml.arg_create_sample ConvertToCoreml.arg_class_labels].
  destruct (ConvertToCoreml.rt_sequential rt _ _) as [sample|e]; [|reflexivity].
  cbn [FS.run_ops foldl FS.run_op].
  set (fs1 := FS.write fs ConvertToCoreml.sample_path (SavedModel sample)).
  destruct (standalone_conversion_never_raises (ConvertToCoreml.rt_coreml rt)
              (ConvertToCoreml.rt_now rt) ConvertToCoreml.sample_path
              (Some "SampleSoilClassifier.mlmodel") (Some class_labels) fs1)
    as (fs' & r & Hrun & _).
  destruct (standalone_conversion_shape (ConvertToCoreml.rt_coreml rt)
              (ConvertToCoreml.rt_now rt) ConvertToCoreml.sample_path
              (Some "SampleSoilClassifier.mlmodel") (Some class_labels) fs1)
    as (Hfs & _).
  rewrite Hrun in *. cbn [fst snd ConvertToCoreml.finish] in *.
  split; [reflexivity|].
  destruct Hfs as [->|[c ->]].
  - apply lookup_insert_eq.
  - unfold FS.write. rewrite lookup_insert_ne by discriminate.
    apply lookup_insert_eq.
Qed.

(** ** Degenerate batch sizes *)

Lemma div_by_negative (n b : Z) : (0 <= n)%Z -> (b < 0)%Z -> (n / b <= 0)%Z.
Proof.
  intros Hn Hb.
  pose proof (Z.div_mod n b ltac:(lia)) as Hdm.
  pose proof (Z.mod_neg_bound n b Hb) as Hmod. nia.
Qed.

(** X19.  A batch size of 0 stops both [train_model] and [evaluate_model]
    at the division by it, before anything is trained or written; a
    negative batch size passes, and gives one step per epoch for both
    streams. *)
Theorem steps_for_degenerate_batch_sizes
    (rt : runtime) (g : globals) (output_dir : string) (model : keras_model)
    (train_generator validation_generator : Keras.generator)
    (fs : filesystem) :
  (BATCH_SIZE g = 0%Z ->
   train_model rt g output_dir model train_generator validation_generator fs
     = (fs, Raise ZeroDivisionError)
   /\ evaluate_model rt g output_dir model validation_generator fs
      = (fs, Raise ZeroDivisionError))
  /\ ((BATCH_SIZE g < 0)%Z ->
      exists call,
        train_model_call g output_dir train_generator validation_generator
          = Ok call
        /\ steps_per_epoch call = 1%Z
        /\ validation_steps call = 1%Z).
Proof.
  split.
  - intros Hb.
    unfold train_model, train_model_call, evaluate_model, mbind, io_bind, lift,
      floordiv.
    rewrite Hb. split; reflexivity.
  - intros Hb. unfold train_model_call, floordiv.
    destruct (Z.eqb_spec (BATCH_SIZE g) 0) as [E|_]; [lia|].
    cbn [mbind result_bind]. eexists. split; [reflexivity|].
    cbn [steps_per_epoch validation_steps].
    pose proof (div_by_negative (Keras.samples train_generator) (BATCH_SIZE g))
      as Ht.
    pose proof (div_by_negative (Keras.samples validation_generator)
                  (BATCH_SIZE g)) as Hv.
    unfold Keras.samples in *. split; lia.
Qed.

(** ** The persister again *)

(** X20.  The model file is written first: in every state a reader can
    meet while [save_model_and_metadata] runs, the trained model is already
    at its path, so a metadata file of this run is never there without its
    model. *)
Theorem model_is_saved_before_metadata
    (rt : runtime) (g : globals) (data_dir output_dir : string)
    (model : keras_model) (evaluation_results : evaluation) (fs : filesystem) :
  Forall (fun st : filesystem =>
            st !! model_path output_dir = Some (File (SavedModel model)))
         (FS.states fs
            (save_steps rt g data_dir output_dir model evaluation_results)).
Proof.
  pose proof (save_steps_cases rt g data_dir output_dir model
                evaluation_results fs) as Hcases.
  cbv zeta in Hcases.
  set (mp := model_path output_dir) in *.
  set (jp := metadata_path output_dir) in *.
  set (s0 := FS.write fs mp (SavedModel model)) in *.
  assert (Hne : mp <> jp) by apply model_path_not_metadata_path.
  assert (H0 : s0 !! mp = Some (File (SavedModel model)))
    by apply lookup_insert_eq.
  destruct Hcases as [(e & _ & _ & ->)|[(e & _ & _ & _ & ->)|Hok]].
  - constructor.
  - constructor; [exact H0 | constructor].
  - destruct Hok as (_ & _ & mid & -> & _ & Hmid).
    constructor; [exact H0|]. constructor.
    { unfold FS.write. rewrite lookup_insert_ne by (apply not_eq_sym, Hne).
      exact H0. }
    apply Forall_app. split.
    + eapply Forall_impl; [exact Hmid|]. intros st [_ Hfr].
      now rewrite (Hfr mp Hne).
    + constructor; [|constructor].
      rewrite lookup_insert_ne by (apply not_eq_sym, Hne). exact H0.
Qed.

Lemma os_path_join_not_dir (a b : string) :
  startswith b "/" = false -> b <> "" -> os_path_join a b <> a.
Proof.
  unfold os_path_join. intros -> Hb H.
  assert (Hlen : forall x, a ++ x = a -> String.length x = 0%nat).
  { intros x Hx. apply (f_equal String.length) in Hx.
    rewrite length_append in Hx. lia. }
  destruct (String.eqb a "" || endswith a "/").
  - apply Hlen in H. destruct b; [congruence | discriminate].
  - apply Hlen in H. discriminate.
Qed.

(** Whether a file can be created depends on the directory and on the
    path named, and on nothing else. *)
Lemma creatable_insert_file (fs : filesystem) (dir p q : string) (c : content) :
  q <> dir -> q <> p ->
  FS.creatable (<[q := File c]> fs) dir p = FS.creatable fs dir p.
Proof.
  intros Hd Hp. unfold FS.creatable.
  now rewrite !lookup_insert_ne by assumption.
Qed.

Lemma creatable_in_directory (fs : filesystem) (dir p : string) :
  FS.isdir fs dir = true ->
  FS.creatable fs dir p = if FS.isdir fs p then Raise (OSError p) else Ok tt.
Proof.
  unfold FS.isdir, FS.creatable. intros Hdir.
  destruct (fs !! dir) as [[c|entries]|]; try discriminate.
  destruct (String.eqb dir ""); now destruct (fs !! p) as [[c|entries']|].
Qed.

(** X21.  In an output directory that exists, [save_model_and_metadata]
    returns exactly when neither the model path nor the metadata path is a
    directory.  When it returns, the file system differs from the one it
    found by exactly two files: the trained model and the whole encoded
    record, whatever the two paths held before.  When it raises, either
    nothing was written or the model file alone. *)
Theorem persister_sets_two_files
    (rt : runtime) (g : globals) (data_dir output_dir : string)
    (model : keras_model) (evaluation_results : evaluation) (fs : filesystem) :
  let save :=
    save_model_and_metadata rt g data_dir output_dir model evaluation_results in
  let record :=
    join_chunks (rt_json rt (metadata_dict rt g data_dir evaluation_results)) in
  let stored := <[model_path output_dir := File (SavedModel model)]> fs in
  FS.isdir fs output_dir = true ->
  match save fs with
  | (fs', Ok _) => fs' = <[metadata_path output_dir := File (Text record)]> stored
  | (fs', Raise _) => fs' = fs \/ fs' = stored
  end
  /\ ((save fs).2 = Ok tt
      <-> FS.isdir fs (model_path output_dir) = false
          /\ FS.isdir fs (metadata_path output_dir) = false).
Proof.
  intros save record stored Hdir. unfold save, save_model_and_metadata.
  pose proof (save_steps_cases rt g data_dir output_dir model
                evaluation_results fs) as Hcases.
  cbv zeta in Hcases. fold record in Hcases.
  set (mp := model_path output_dir) in *.
  set (jp := metadata_path output_dir) in *.
  change (FS.write fs mp (SavedModel model)) with stored in Hcases.
  assert (Hjp : FS.creatable stored output_dir jp
                = FS.creatable fs output_dir jp).
  { apply creatable_insert_file.
    - apply os_path_join_not_dir; [reflexivity | discriminate].
    - apply model_path_not_metadata_path. }
  rewrite Hjp, !(creatable_in_directory fs output_dir) in Hcases by exact Hdir.
  destruct Hcases as [(e & E0 & -> & _)|[(e & E0 & E1 & -> & _)|Hok]];
    cbn [fst snd].
  - split; [now left|]. split; [discriminate|]. intros [Hm _].
    rewrite Hm in E0. discriminate.
  - split; [now right|]. split; [discriminate|]. intros [_ Hj].
    rewrite Hj in E1. discriminate.
  - destruct Hok as (E0 & E1 & mid & _ & -> & _). cbn [fst snd].
    split; [reflexivity|]. split; [|reflexivity]. intros _.
    destruct (FS.isdir fs mp); [discriminate|].
    destruct (FS.isdir fs jp); [discriminate|]. now split.
Qed.

Lemma persister_sets_two_files_witness :
  FS.isdir Examples.earlier_run "out" = true
  /\ (save_model_and_metadata (Examples.runtime_with CoreML.reference)
        Examples.small_globals "dataset" "out" Examples.saved_model
        Examples.an_evaluation Examples.earlier_run).2 = Ok tt
  /\ (save_model_and_metadata (Examples.runtime_with CoreML.reference)
        Examples.small_globals "dataset" "out" Examples.saved_model
        Examples.an_evaluation Examples.earlier_run).1
       !! "out/soil_classifier_model.h5"
     = Some (File (SavedModel Examples.saved_model)).
Proof.
  assert (Hdir : FS.isdir Examples.earlier_run "out" = true) by reflexivity.
  destruct (persister_sets_two_files (Examples.runtime_with CoreML.reference)
              Examples.small_globals "dataset" "out" Examples.saved_model
              Examples.an_evaluation Examples.earlier_run Hdir)
    as [Hfinal Hiff].
  assert (Hok : (save_model_and_metadata
                   (Examples.runtime_with CoreML.reference)
                   Examples.small_globals "dataset" "out" Examples.saved_model
                   Examples.an_evaluation Examples.earlier_run).2 = Ok tt).
  { apply Hiff. split; reflexivity. }
  split; [exact Hdir|]. split; [exact Hok|].
  destruct (save_model_and_metadata (Examples.runtime_with CoreML.reference)
              Examples.small_globals "dataset" "out" Examples.saved_model
              Examples.an_evaluation Examples.earlier_run) as [fs' [[]|e]];
    [|discriminate Hok].
  cbn [fst]. rewrite Hfinal.
  rewrite lookup_insert_ne by discriminate. apply lookup_insert_eq.
Defined.
